(** * generador-reportes-gh: the daily GitHub activity report (src/index.ts)

    A shallow embedding of [src/index.ts].  The script is sequential
    [async]/[await] code over four kinds of effects: reading the clock
    ([new Date()]), HTTP GET requests ([axios.get]), console output and one
    file write.  It is modelled in a small reader/state/exception monad:
    the reader component is everything the process finds around itself
    (environment variables, [config.json], the clock, the platform's
    answers), the state component is everything it leaves behind (the
    requests it issued, the two console streams, [report.md]).

    Payloads are typed after the fields the script reads from them; the
    fields the platform documents as nullable or optional
    ([merged_at], [user], [files]) keep JavaScript's three-way
    absent / null / present distinction. *)

From Stdlib Require Import String Ascii List Bool Arith ZArith Lia.
From Stdlib Require Import Decimal DecimalString.
Import ListNotations.
Local Open Scope list_scope.
Local Open Scope string_scope.

Set Implicit Arguments.

(* ================================================================== *)
(** ** JavaScript values the script manipulates *)

Module JS.

(** A property of a decoded JSON object: missing ([undefined]), [null],
    or holding a value. *)
Inductive Nullable (A : Type) : Type :=
| Absent : Nullable A
| Null : Nullable A
| Present : A -> Nullable A.
Arguments Absent {A}.
Arguments Null {A}.
Arguments Present {A} _.

Definition nullish {A} (v : Nullable A) : bool :=
  match v with Present _ => false | _ => true end.

(** ToBoolean on a string-or-nullish value: [undefined], [null] and the
    empty string are falsy. *)
Definition truthy_string (s : string) : bool :=
  match s with EmptyString => false | String _ _ => true end.

Definition truthy (v : Nullable string) : bool :=
  match v with Present s => truthy_string s | _ => false end.

(** [process.env.X]: a string, or [undefined]. *)
Definition truthy_env (v : option string) : bool :=
  match v with Some s => truthy_string s | None => false end.

(** [${v}] for a value that is a string or [undefined]. *)
Definition template (v : option string) : string :=
  match v with Some s => s | None => "undefined" end.

(** [login === GITHUB_USER], a string against a string-or-undefined. *)
Definition strict_eq (s : string) (v : option string) : bool :=
  match v with Some t => String.eqb s t | None => false end.

(** An [Error] object: the two properties [Error.prototype.toString]
    reads. *)
Record Error : Type := mkError { name : string; message : string }.

(** [Error.prototype.toString]. *)
Definition Error_toString (e : Error) : string :=
  match name e, message e with
  | EmptyString, m => m
  | n, EmptyString => n
  | n, m => n ++ ": " ++ m
  end.

(** The [TypeError] V8 raises for [v.prop] with [v] null or undefined. *)
Definition cannot_read (what prop : string) : Error :=
  mkError "TypeError"
    ("Cannot read properties of " ++ what ++ " (reading '" ++ prop ++ "')").

(** [String.prototype.split] with a one-character separator. *)
Fixpoint split (sep : ascii) (s : string) : list string :=
  match s with
  | EmptyString => [EmptyString]
  | String c rest =>
      if Ascii.eqb c sep then EmptyString :: split sep rest
      else match split sep rest with
           | piece :: pieces => String c piece :: pieces
           | [] => [String c EmptyString]
           end
  end.

(** [String.prototype.padStart(width, "0")]. *)
Fixpoint zeros (n : nat) : string :=
  match n with O => EmptyString | S k => String "0" (zeros k) end.

Definition padStart (width : nat) (s : string) : string :=
  zeros (width - String.length s) ++ s.

Definition decimal (n : nat) : string :=
  NilEmpty.string_of_uint (Nat.to_uint n).

End JS.
Import JS.

(* ================================================================== *)
(** ** Dates *)

(** A [Date], by the UTC calendar fields its formatting methods read. *)
Record Date : Type := mkDate {
  utc_year : Z;
  utc_month : nat;      (* 1..12 *)
  utc_day : nat;
  utc_hours : nat;
  utc_minutes : nat;
  utc_seconds : nat;
  utc_milliseconds : nat
}.

(** The year of [Date.prototype.toISOString]: four digits inside
    0..9999, otherwise a sign and six digits. *)
Definition iso_year (y : Z) : string :=
  if ((0 <=? y) && (y <=? 9999))%Z then padStart 4 (decimal (Z.to_nat y))
  else (if (y <? 0)%Z then "-" else "+") ++ padStart 6 (decimal (Z.abs_nat y)).

Definition toISOString (d : Date) : string :=
  iso_year (utc_year d) ++ "-" ++ padStart 2 (decimal (utc_month d)) ++ "-"
  ++ padStart 2 (decimal (utc_day d)) ++ "T"
  ++ padStart 2 (decimal (utc_hours d)) ++ ":"
  ++ padStart 2 (decimal (utc_minutes d)) ++ ":"
  ++ padStart 2 (decimal (utc_seconds d)) ++ "."
  ++ padStart 3 (decimal (utc_milliseconds d)) ++ "Z".

(** [array[0]] on an array of strings, then spliced into a template. *)
Definition first_piece (pieces : list string) : string :=
  template (hd_error pieces).

(** [new Date().toISOString().split('T')[0]], for the date read [d]. *)
Definition today_of (d : Date) : string :=
  first_piece (split "T" (toISOString d)).

(* ================================================================== *)
(** ** Payloads of the platform, and the script's own records *)

Record Issue : Type := mkIssue {
  issue_title : string;
  issue_html_url : string
}.

Record User : Type := mkUser { login : string }.

Record PullRequest : Type := mkPR {
  pr_title : string;
  pr_html_url : string;
  merged_at : Nullable string;
  user : Nullable User
}.

(** An entry of the commit list: [sha], [commit.message], [html_url]. *)
Record CommitEntry : Type := mkCommitEntry {
  entry_sha : string;
  entry_commit_message : string;
  entry_html_url : string
}.

(** What [getTodaysCommits] projects each entry to. *)
Record Commit : Type := mkCommit {
  sha : string;
  commit_message : string;
  html_url : string
}.

Record FileDiff : Type := mkFileDiff { filename : string }.

Record CommitDetail : Type := mkCommitDetail {
  files : Nullable (list FileDiff)
}.

(** An entry of [config.repos]. *)
Record RepoConfig : Type := mkRepoConfig {
  cfg_name : string;
  cfg_label : string
}.

(** An element of [allData]. *)
Record RepositoryReport : Type := mkReport {
  repo : string;
  label : string;
  issues : list Issue;
  prs : list PullRequest;
  commits : list Commit
}.

(* ================================================================== *)
(** ** The process and its surroundings *)

(** How an [axios.get] promise settles. *)
Inductive Response (T : Type) : Type :=
| Fulfilled : T -> Response T
| Rejected : Error -> Response T.
Arguments Fulfilled {T} _.
Arguments Rejected {T} _.

(** A request as it leaves the process: the URL and the two headers. *)
Record Request : Type := mkRequest {
  req_url : string;
  req_authorization : string;
  req_accept : string
}.

(** What the process finds.  The clock and the platform are oracles: the
    [n]-th reading of the clock, and the platform's answer to a URL asked
    as the [n]-th request of the run.  [report_path] stands for
    [join(__dirname, '../report.md')] and [toLocaleDateString] for the
    host's locale-dependent formatting.  [disk] is how the file system
    settles a write of a content to a path. *)
Record Ambient : Type := mkAmbient {
  env_GITHUB_TOKEN : option string;
  env_GITHUB_USER : option string;
  config_repos : list RepoConfig;
  report_path : string;
  clock : nat -> Date;
  toLocaleDateString : Date -> string;
  issues_endpoint : nat -> string -> Response (list Issue);
  pulls_endpoint : nat -> string -> Response (list PullRequest);
  commits_endpoint : nat -> string -> Response (list CommitEntry);
  commit_endpoint : nat -> string -> Response CommitDetail;
  disk : string -> string -> Response unit
}.

(** What the process has done so far. *)
Record Proc : Type := mkProc {
  clock_reads : nat;
  requests : list Request;          (* oldest first *)
  stdout : list string;
  stderr : list string;
  report_md : option string
}.

Definition fresh : Proc := mkProc 0 [] [] [] None.

(** An [await]ed computation returns, throws, or ends the process. *)
Inductive Outcome (A : Type) : Type :=
| Ok : A -> Outcome A
| Throw : Error -> Outcome A
| Exit : Z -> Outcome A.
Arguments Ok {A} _.
Arguments Throw {A} _.
Arguments Exit {A} _.

Definition M (A : Type) : Type := Ambient -> Proc -> Outcome A * Proc.

Definition ret {A} (a : A) : M A := fun _ p => (Ok a, p).

Definition bind {A B} (m : M A) (k : A -> M B) : M B :=
  fun env p =>
    match m env p with
    | (Ok a, p') => k a env p'
    | (Throw e, p') => (Throw e, p')
    | (Exit c, p') => (Exit c, p')
    end.

Definition throw {A} (e : Error) : M A := fun _ p => (Throw e, p).

(** [try { body } catch (error) { handler }]. *)
Definition try_catch {A} (body : M A) (handler : Error -> M A) : M A :=
  fun env p =>
    match body env p with
    | (Throw e, p') => handler e env p'
    | settled => settled
    end.

Declare Scope js_scope.
Delimit Scope js_scope with js.
Notation "x <- m ;; k" := (bind m (fun x => k))
  (at level 100, m at next level, right associativity) : js_scope.
Notation "m ;; k" := (bind m (fun _ => k))
  (at level 100, right associativity) : js_scope.
Local Open Scope js_scope.

(** [for (const x of xs) { ... }] over a loop-carried variable. *)
Fixpoint for_of {A S} (xs : list A) (body : A -> S -> M S) (s : S) : M S :=
  match xs with
  | [] => ret s
  | x :: rest => s' <- body x s ;; for_of rest body s'
  end.

Definition ask {A} (f : Ambient -> A) : M A := fun env p => (Ok (f env), p).

(** The five ways the process leaves a mark. *)
Definition tick (p : Proc) : Proc :=
  mkProc (S (clock_reads p)) (requests p) (stdout p) (stderr p) (report_md p).

Definition sent (r : Request) (p : Proc) : Proc :=
  mkProc (clock_reads p) (requests p ++ [r])%list (stdout p) (stderr p)
         (report_md p).

Definition said (line : string) (p : Proc) : Proc :=
  mkProc (clock_reads p) (requests p) (stdout p ++ [line])%list (stderr p)
         (report_md p).

Definition complained (line : string) (p : Proc) : Proc :=
  mkProc (clock_reads p) (requests p) (stdout p) (stderr p ++ [line])%list
         (report_md p).

Definition wrote (content : string) (p : Proc) : Proc :=
  mkProc (clock_reads p) (requests p) (stdout p) (stderr p) (Some content).

(** [new Date()]. *)
Definition new_Date : M Date :=
  fun env p => (Ok (clock env (clock_reads p)), tick p).

Definition console_log (line : string) : M unit :=
  fun _ p => (Ok tt, said line p).

Definition console_error (line : string) : M unit :=
  fun _ p => (Ok tt, complained line p).

Definition process_exit {A} (code : Z) : M A := fun _ p => (Exit code, p).

(** [fs.writeFile(filePath, content)], the promise awaited: fulfilled,
    the report file is replaced; rejected (a directory in the way, no
    permission), the error is thrown and the file is as it was. *)
Definition fs_writeFile (filePath content : string) : M unit :=
  fun env p =>
    match disk env filePath content with
    | Fulfilled _ => (Ok tt, wrote content p)
    | Rejected e => (Throw e, p)
    end.

(** The [headers] constant, on a request for [url]. *)
Definition headers (env : Ambient) (url : string) : Request :=
  mkRequest url ("token " ++ template (env_GITHUB_TOKEN env))
            "application/vnd.github.v3+json".

(** [axios.get(url, { headers })] against one of the four endpoints; the
    value is [res.data]. *)
Definition axios_get {T} (endpoint : Ambient -> nat -> string -> Response T)
    (url : string) : M T :=
  fun env p =>
    match endpoint env (List.length (requests p)) url with
    | Fulfilled data => (Ok data, sent (headers env url) p)
    | Rejected e => (Throw e, sent (headers env url) p)
    end.

(* ================================================================== *)
(** ** The script *)

(** The line feed the template literals write as a backslash and n. *)
Definition LF : string := String "010"%char EmptyString.

(** [async function getClosedIssues(owner, repo)]. *)
Definition getClosedIssues (owner : option string) (repo : string)
  : M (list Issue) :=
  now <- new_Date ;;
  let today := today_of now in
  GITHUB_USER <- ask env_GITHUB_USER ;;
  let url := "https://api.github.com/repos/" ++ template owner ++ "/" ++ repo
             ++ "/issues?state=closed&creator=" ++ template GITHUB_USER
             ++ "&since=" ++ today ++ "T00:00:00Z" in
  axios_get issues_endpoint url.

(** The callback of [filter] in [getMergedPRs]:
    [pr.merged_at && pr.user.login === GITHUB_USER].  [&&] does not look
    at its right operand when the left one is falsy; [pr.user.login] with
    [pr.user] null or undefined is a [TypeError]. *)
Definition merged_by (GITHUB_USER : option string) (pr : PullRequest) : M bool :=
  if truthy (merged_at pr) then
    match user pr with
    | Present u => ret (strict_eq (login u) GITHUB_USER)
    | Null => throw (cannot_read "null" "login")
    | Absent => throw (cannot_read "undefined" "login")
    end
  else ret false.

(** [Array.prototype.filter] with a callback that may throw. *)
Fixpoint Array_filter {A} (keep : A -> M bool) (xs : list A) : M (list A) :=
  match xs with
  | [] => ret []
  | x :: rest =>
      k <- keep x ;;
      kept <- Array_filter keep rest ;;
      ret (if k then x :: kept else kept)
  end.

(** [async function getMergedPRs(owner, repo)]. *)
Definition getMergedPRs (owner : option string) (repo : string)
  : M (list PullRequest) :=
  now <- new_Date ;;
  let today := today_of now in
  let url := "https://api.github.com/repos/" ++ template owner ++ "/" ++ repo
             ++ "/pulls?state=closed&since=" ++ today ++ "T00:00:00Z" in
  data <- axios_get pulls_endpoint url ;;
  GITHUB_USER <- ask env_GITHUB_USER ;;
  Array_filter (merged_by GITHUB_USER) data.

(** [async function getTodaysCommits(owner, repo)]. *)
Definition getTodaysCommits (owner : option string) (repo : string)
  : M (list Commit) :=
  now <- new_Date ;;
  let today := today_of now in
  GITHUB_USER <- ask env_GITHUB_USER ;;
  let url := "https://api.github.com/repos/" ++ template owner ++ "/" ++ repo
             ++ "/commits?author=" ++ template GITHUB_USER
             ++ "&since=" ++ today ++ "T00:00:00Z" in
  data <- axios_get commits_endpoint url ;;
  ret (map (fun commit =>
              mkCommit (entry_sha commit) (entry_commit_message commit)
                       (entry_html_url commit)) data).

(** [res.data.files?.map((file) => file.filename) || []]: the optional
    chain gives [undefined] for a nullish [files], and an array, empty or
    not, is truthy. *)
Definition filenames_or_empty (detail : CommitDetail) : list string :=
  match files detail with
  | Present entries => map filename entries
  | Null | Absent => []
  end.

(** [async function getModifiedFiles(owner, repo, sha)]. *)
Definition getModifiedFiles (owner : option string) (repo sha : string)
  : M (list string) :=
  let url := "https://api.github.com/repos/" ++ template owner ++ "/" ++ repo
             ++ "/commits/" ++ sha in
  try_catch
    (data <- axios_get commit_endpoint url ;;
     ret (filenames_or_empty data))
    (fun error =>
       console_error ("❌ Error obteniendo archivos del commit " ++ sha ++ ": "
                      ++ Error_toString error) ;;
       ret []).

(** The body of the loop over [data.commits], on the carried [content]. *)
Definition commit_step (data : RepositoryReport) (commit : Commit)
    (content : string) : M string :=
  let content := content ++ LF ++ "#### Commit: `" ++ commit_message commit
                 ++ "`" ++ LF in
  let content := content ++ "- [Ver commit](" ++ html_url commit ++ ")" ++ LF in
  GITHUB_USER <- ask env_GITHUB_USER ;;
  files <- getModifiedFiles GITHUB_USER (repo data) (sha commit) ;;
  content <-
    (if (0 <? List.length files)%nat then
       let content := content ++ "- Archivos modificados:" ++ LF in
       for_of files (fun file content => ret (content ++ "  - " ++ file ++ LF))
              content
     else ret (content ++ "- No se encontraron archivos modificados." ++ LF)) ;;
  ret (content ++ LF ++ "---" ++ LF).

(** The body of the loop over [allData]. *)
Definition repo_step (data : RepositoryReport) (content : string) : M string :=
  let content := content ++ LF ++ "## 🏗️ Repositorio: " ++ label data ++ " ("
                 ++ repo data ++ ")" ++ LF in
  let content := content ++ LF ++ "### 🛠️ Issues Resueltos - " ++ label data
                 ++ LF in
  content <-
    (if (List.length (issues data) =? 0)%nat then
       ret (content ++ LF ++ "- Ninguno" ++ LF)
     else
       for_of (issues data)
         (fun issue content =>
            ret (content ++ LF ++ "- [" ++ issue_title issue ++ "]("
                 ++ issue_html_url issue ++ ")" ++ LF))
         content) ;;
  let content := content ++ LF ++ "### 🔄 Pull Requests Mergiados - "
                 ++ label data ++ LF in
  content <-
    (if (List.length (prs data) =? 0)%nat then
       ret (content ++ LF ++ "- Ninguno" ++ LF)
     else
       for_of (prs data)
         (fun pr content =>
            ret (content ++ LF ++ "- [" ++ pr_title pr ++ "](" ++ pr_html_url pr
                 ++ ")" ++ LF))
         content) ;;
  let content := content ++ LF ++ "### 💾 Commits del día - " ++ label data
                 ++ LF in
  if (List.length (commits data) =? 0)%nat then
    ret (content ++ LF ++ "- Ninguno" ++ LF)
  else
    for_of (commits data) (commit_step data) content.

(** [async function generateReport(allData)]. *)
Definition generateReport (allData : list RepositoryReport) : M unit :=
  let content := "# Reporte Semanal de Actividades" ++ LF ++ LF in
  now <- new_Date ;;
  format <- ask toLocaleDateString ;;
  let content := content ++ "Fecha: " ++ format now ++ LF in
  content <- for_of allData repo_step content ;;
  filePath <- ask report_path ;;
  fs_writeFile filePath content ;;
  console_log ("✅ Reporte generado en: " ++ filePath).

(** The body of the loop over [config.repos], on the carried [allData];
    [allData.push] is the last statement of the [try] block. *)
Definition fetch_step (repoConfig : RepoConfig)
    (allData : list RepositoryReport) : M (list RepositoryReport) :=
  let repo := cfg_name repoConfig in
  let label := cfg_label repoConfig in
  console_log ("🔄 Obteniendo datos de " ++ repo ++ "...") ;;
  try_catch
    (GITHUB_USER <- ask env_GITHUB_USER ;;
     issues <- getClosedIssues GITHUB_USER repo ;;
     prs <- getMergedPRs GITHUB_USER repo ;;
     commits <- getTodaysCommits GITHUB_USER repo ;;
     ret (allData ++ [mkReport repo label issues prs commits])%list)
    (fun error =>
       console_error ("❌ Error obteniendo datos de " ++ repo ++ ": "
                      ++ message error) ;;
       ret allData).

(** The [async] arrow function the script ends with. *)
Definition main : M unit :=
  repos <- ask config_repos ;;
  allData <- for_of repos fetch_step [] ;;
  generateReport allData.

(** The module, top to bottom: the credentials check, then [main]. *)
Definition script : M unit :=
  GITHUB_TOKEN <- ask env_GITHUB_TOKEN ;;
  GITHUB_USER <- ask env_GITHUB_USER ;;
  (if negb (truthy_env GITHUB_TOKEN) || negb (truthy_env GITHUB_USER) then
     console_error "❌ Faltan variables de entorno. Verifica el archivo .env" ;;
     process_exit 1
   else ret tt) ;;
  main.

(** The exit status Node reports: 0 when the script runs to its end, the
    argument of [process.exit], 1 for a rejection nobody handles. *)
Definition exit_status {A} (o : Outcome A) : Z :=
  match o with
  | Ok _ => 0
  | Throw _ => 1
  | Exit code => code
  end%Z.

(** One run of the process. *)
Definition run (env : Ambient) : Outcome unit * Proc := script env fresh.

(* ================================================================== *)
(** ** The document and the run, as the specification words them

    The definitions of this part are not translated from the script:
    they say what the specification says, and the theorems below compare
    them with the script. *)

Fixpoint glue (pieces : list string) : string :=
  match pieces with
  | [] => EmptyString
  | piece :: rest => piece ++ glue rest
  end.

(** The fixed "none" placeholder. *)
Definition placeholder : string := LF ++ "- Ninguno" ++ LF.

(** A linked list item. *)
Definition linked_item (title url : string) : string :=
  LF ++ "- [" ++ title ++ "](" ++ url ++ ")" ++ LF.

Definition issue_items (l : list Issue) : list string :=
  map (fun issue => linked_item (issue_title issue) (issue_html_url issue)) l.

Definition pr_items (l : list PullRequest) : list string :=
  map (fun pr => linked_item (pr_title pr) (pr_html_url pr)) l.

(** The placeholder for no entry, the items otherwise. *)
Definition block (items : list string) : string :=
  match items with
  | [] => placeholder
  | _ :: _ => glue items
  end.

Definition file_lines (paths : list string) : string :=
  match paths with
  | [] => "- No se encontraron archivos modificados." ++ LF
  | _ :: _ =>
      "- Archivos modificados:" ++ LF
      ++ glue (map (fun path => "  - " ++ path ++ LF) paths)
  end.

Definition commit_block (commit : Commit) (paths : list string) : string :=
  LF ++ "#### Commit: `" ++ commit_message commit ++ "`" ++ LF
  ++ "- [Ver commit](" ++ html_url commit ++ ")" ++ LF
  ++ file_lines paths ++ LF ++ "---" ++ LF.

Definition commit_blocks (l : list Commit) (paths : list (list string))
  : list string :=
  map (fun cp => commit_block (fst cp) (snd cp)) (combine l paths).

Definition repository_heading (label repo : string) : string :=
  LF ++ "## 🏗️ Repositorio: " ++ label ++ " (" ++ repo ++ ")" ++ LF.

Definition issues_heading (label : string) : string :=
  LF ++ "### 🛠️ Issues Resueltos - " ++ label ++ LF.

Definition prs_heading (label : string) : string :=
  LF ++ "### 🔄 Pull Requests Mergiados - " ++ label ++ LF.

Definition commits_heading (label : string) : string :=
  LF ++ "### 💾 Commits del día - " ++ label ++ LF.

(** A repository's section, every commit's file list given. *)
Definition section (data : RepositoryReport) (paths : list (list string))
  : string :=
  repository_heading (label data) (repo data)
  ++ issues_heading (label data) ++ block (issue_items (issues data))
  ++ prs_heading (label data) ++ block (pr_items (prs data))
  ++ commits_heading (label data)
  ++ block (commit_blocks (commits data) paths).

Definition sections (allData : list RepositoryReport)
    (paths : list (list (list string))) : list string :=
  map (fun dp => section (fst dp) (snd dp)) (combine allData paths).

(** The title and the date line. *)
Definition header (date : string) : string :=
  "# Reporte Semanal de Actividades" ++ LF ++ LF ++ "Fecha: " ++ date ++ LF.

Definition document (date : string) (allData : list RepositoryReport)
    (paths : list (list (list string))) : string :=
  header date ++ glue (sections allData paths).

(** The end of the Report Generator, the text assembled: the write, and
    after a fulfilled write the line that names the file. *)
Definition report_written (env : Ambient) (text : string) (p : Proc)
  : Outcome unit * Proc :=
  match disk env (report_path env) text with
  | Fulfilled _ =>
      (Ok tt,
       said ("✅ Reporte generado en: " ++ report_path env) (wrote text p))
  | Rejected error => (Throw error, p)
  end.

(** The file system takes the write of [text] to the report's path. *)
Definition write_fulfilled (env : Ambient) (text : string) : Prop :=
  disk env (report_path env) text = Fulfilled tt.

(** [xs.map(f)] awaited element by element. *)
Fixpoint mapM {A B} (f : A -> M B) (xs : list A) : M (list B) :=
  match xs with
  | [] => ret []
  | x :: rest => y <- f x ;; ys <- mapM f rest ;; ret (y :: ys)
  end.

(** Resolving the file list of a commit, of a repository's commits, and
    of all repositories, in the order the report lists them. *)
Definition resolve_commit (data : RepositoryReport) (commit : Commit)
  : M (list string) :=
  GITHUB_USER <- ask env_GITHUB_USER ;;
  getModifiedFiles GITHUB_USER (repo data) (sha commit).

Definition resolve_files (data : RepositoryReport) : M (list (list string)) :=
  mapM (resolve_commit data) (commits data).

Definition resolve_all (allData : list RepositoryReport)
  : M (list (list (list string))) :=
  mapM resolve_files allData.

(** Fetching one repository: the three Collectors in sequence. *)
Definition fetch_repository (repoConfig : RepoConfig) : M RepositoryReport :=
  GITHUB_USER <- ask env_GITHUB_USER ;;
  issues <- getClosedIssues GITHUB_USER (cfg_name repoConfig) ;;
  prs <- getMergedPRs GITHUB_USER (cfg_name repoConfig) ;;
  commits <- getTodaysCommits GITHUB_USER (cfg_name repoConfig) ;;
  ret (mkReport (cfg_name repoConfig) (cfg_label repoConfig) issues prs commits).

Definition progress_line (repoConfig : RepoConfig) : string :=
  "🔄 Obteniendo datos de " ++ cfg_name repoConfig ++ "...".

Definition failure_line (repoConfig : RepoConfig) (error : Error) : string :=
  "❌ Error obteniendo datos de " ++ cfg_name repoConfig ++ ": "
  ++ message error.

Definition Attempt : Type := (RepoConfig * (Error + RepositoryReport))%type.

(** One repository's turn: announced, fetched, and either an entry or a
    logged failure. *)
Definition attempt (repoConfig : RepoConfig) : M Attempt :=
  console_log (progress_line repoConfig) ;;
  try_catch
    (data <- fetch_repository repoConfig ;; ret (repoConfig, inr data))
    (fun error =>
       console_error (failure_line repoConfig error) ;;
       ret (repoConfig, inl error)).

Definition attempts (repos : list RepoConfig) : M (list Attempt) :=
  mapM attempt repos.

(** The entries of the repositories whose fetch succeeded, and those
    repositories. *)
Fixpoint successes (tr : list Attempt) : list RepositoryReport :=
  match tr with
  | [] => []
  | (_, inr data) :: rest => data :: successes rest
  | (_, inl _) :: rest => successes rest
  end.

Fixpoint succeeded (tr : list Attempt) : list RepoConfig :=
  match tr with
  | [] => []
  | (repoConfig, inr _) :: rest => repoConfig :: succeeded rest
  | (_, inl _) :: rest => succeeded rest
  end.

Definition failed (a : Attempt) : Prop := exists error, snd a = inl error.

(** The credentials check of the script's line 16. *)
Definition credentials_missing (env : Ambient) : bool :=
  negb (truthy_env (env_GITHUB_TOKEN env))
  || negb (truthy_env (env_GITHUB_USER env)).

Definition missing_line : string :=
  "❌ Faltan variables de entorno. Verifica el archivo .env".

(** The date of the activity window: the UTC calendar date, in ISO 8601. *)
Definition iso_date (d : Date) : string :=
  iso_year (utc_year d) ++ "-" ++ padStart 2 (decimal (utc_month d)) ++ "-"
  ++ padStart 2 (decimal (utc_day d)).

(** Midnight UTC of the day of [d]. *)
Definition window_start (d : Date) : string := iso_date d ++ "T00:00:00Z".

Definition issues_url (env : Ambient) (owner : option string) (repo : string)
    (d : Date) : string :=
  "https://api.github.com/repos/" ++ template owner ++ "/" ++ repo
  ++ "/issues?state=closed&creator=" ++ template (env_GITHUB_USER env)
  ++ "&since=" ++ window_start d.

Definition pulls_url (owner : option string) (repo : string) (d : Date)
  : string :=
  "https://api.github.com/repos/" ++ template owner ++ "/" ++ repo
  ++ "/pulls?state=closed&since=" ++ window_start d.

Definition commits_url (env : Ambient) (owner : option string) (repo : string)
    (d : Date) : string :=
  "https://api.github.com/repos/" ++ template owner ++ "/" ++ repo
  ++ "/commits?author=" ++ template (env_GITHUB_USER env)
  ++ "&since=" ++ window_start d.

Definition commit_url (owner : option string) (repo sha : string) : string :=
  "https://api.github.com/repos/" ++ template owner ++ "/" ++ repo
  ++ "/commits/" ++ sha.

(** What the claim about the Merged-PRs Collector asks of an entry: a
    merge timestamp that is not null, and the configured account as
    author. *)
Definition merged (pr : PullRequest) : bool := negb (nullish (merged_at pr)).

Definition authored_by (account : option string) (pr : PullRequest) : bool :=
  match user pr with
  | Present u => strict_eq (login u) account
  | Null | Absent => false
  end.

(** An entry on which the filter's callback throws: merged, with no
    [user] object. *)
Definition orphan (pr : PullRequest) : bool :=
  truthy (merged_at pr) && nullish (user pr).

(** [c] occurs in [s]. *)
Fixpoint occurs (c : ascii) (s : string) : bool :=
  match s with
  | EmptyString => false
  | String a rest => Ascii.eqb a c || occurs c rest
  end.

(* ================================================================== *)
(** ** Concrete runs

    The end-to-end scenario of the specification (repository alpha is
    fetched, repository beta is not) and variations of it. *)

Module Scenario.

(** 7 November 2024, one millisecond before midnight UTC, and the first
    millisecond of the next day. *)
Definition late : Date := mkDate 2024 11 7 23 59 59 999.
Definition early : Date := mkDate 2024 11 8 0 0 0 1.

Definition not_found : Error :=
  mkError "AxiosError" "Request failed with status code 404".

Definition about_alpha (url : string) : bool :=
  String.prefix "https://api.github.com/repos/me/alpha/" url.

Definition bug : Issue := mkIssue "Bug" "https://github.com/me/alpha/issues/1".

Definition mine : PullRequest :=
  mkPR "Mine" "https://github.com/me/alpha/pull/2"
       (Present "2024-11-07T10:00:00Z") (Present (mkUser "me")).

Definition unmerged : PullRequest :=
  mkPR "Closed" "https://github.com/me/alpha/pull/3" Null
       (Present (mkUser "me")).

Definition theirs : PullRequest :=
  mkPR "Theirs" "https://github.com/me/alpha/pull/4"
       (Present "2024-11-07T11:00:00Z") (Present (mkUser "you")).

(** A merged pull request whose author's account is gone. *)
Definition ghost : PullRequest :=
  mkPR "Ghost" "https://github.com/me/alpha/pull/5"
       (Present "2024-11-07T09:00:00Z") Null.

Definition fix_entry : CommitEntry :=
  mkCommitEntry "abc" "fix" "https://github.com/me/alpha/commit/abc".

Definition fix_commit : Commit :=
  mkCommit "abc" "fix" "https://github.com/me/alpha/commit/abc".

Definition two_files : CommitDetail :=
  mkCommitDetail (Present [mkFileDiff "a.ts"; mkFileDiff "b.md"]).

Definition alpha : RepoConfig := mkRepoConfig "alpha" "Alpha".
Definition beta : RepoConfig := mkRepoConfig "beta" "Beta".

(** A process around which alpha answers and everything else is a 404;
    the clock passes midnight UTC after its second reading. *)
Definition ambient (token account : option string) (repos : list RepoConfig)
    (pulls : list PullRequest) (detail : Response CommitDetail) : Ambient :=
  mkAmbient token account repos "/srv/reportes/report.md"
    (fun n => if (n <? 2)%nat then late else early)
    (fun _ => "7/11/2024")
    (fun _ url => if about_alpha url then Fulfilled [bug] else Rejected not_found)
    (fun _ url => if about_alpha url then Fulfilled pulls else Rejected not_found)
    (fun _ url =>
       if about_alpha url then Fulfilled [fix_entry] else Rejected not_found)
    (fun _ _ => detail)
    (fun _ _ => Fulfilled tt).

Definition alpha_beta : Ambient :=
  ambient (Some "s3cret") (Some "me") [alpha; beta] [mine; unmerged; theirs]
          (Fulfilled two_files).

(** The same, with the two repositories configured the other way round. *)
Definition beta_alpha : Ambient :=
  ambient (Some "s3cret") (Some "me") [beta; alpha] [mine; unmerged; theirs]
          (Fulfilled two_files).

(** The same, with the commit-detail endpoint failing. *)
Definition detail_down : Ambient :=
  ambient (Some "s3cret") (Some "me") [alpha; beta] [mine; unmerged; theirs]
          (Rejected not_found).

(** The same, with a commit-detail payload that has no file list. *)
Definition no_file_list : Ambient :=
  ambient (Some "s3cret") (Some "me") [alpha; beta] [mine; unmerged; theirs]
          (Fulfilled (mkCommitDetail Absent)).

(** The same as [alpha_beta], under another token. *)
Definition other_token : Ambient :=
  ambient (Some "0ther") (Some "me") [alpha; beta] [mine; unmerged; theirs]
          (Fulfilled two_files).

(** The same as [alpha_beta], on a host that writes dates the other way
    round. *)
Definition other_locale : Ambient :=
  mkAmbient (Some "s3cret") (Some "me") [alpha; beta]
    "/srv/reportes/report.md"
    (clock alpha_beta) (fun _ => "11/7/2024")
    (issues_endpoint alpha_beta) (pulls_endpoint alpha_beta)
    (commits_endpoint alpha_beta) (commit_endpoint alpha_beta)
    (disk alpha_beta).

(** The error of a write to a file the process may not write. *)
Definition no_permission : Error :=
  mkError "Error"
    "EACCES: permission denied, open '/srv/reportes/report.md'".

(** The same as [alpha_beta], with the report file write-protected. *)
Definition read_only : Ambient :=
  mkAmbient (Some "s3cret") (Some "me") [alpha; beta]
    "/srv/reportes/report.md"
    (clock alpha_beta) (toLocaleDateString alpha_beta)
    (issues_endpoint alpha_beta) (pulls_endpoint alpha_beta)
    (commits_endpoint alpha_beta) (commit_endpoint alpha_beta)
    (fun _ _ => Rejected no_permission).

(** No repository configured, and the report file write-protected. *)
Definition nothing_read_only : Ambient :=
  mkAmbient (Some "s3cret") (Some "me") []
    "/srv/reportes/report.md"
    (clock alpha_beta) (toLocaleDateString alpha_beta)
    (issues_endpoint alpha_beta) (pulls_endpoint alpha_beta)
    (commits_endpoint alpha_beta) (commit_endpoint alpha_beta)
    (fun _ _ => Rejected no_permission).

(** Nothing can be fetched. *)
Definition only_beta : Ambient :=
  ambient (Some "s3cret") (Some "me") [beta; beta] [] (Rejected not_found).

(** The pull-request list of alpha holds the ghost's. *)
Definition with_ghost : Ambient :=
  ambient (Some "s3cret") (Some "me") [alpha] [ghost; mine]
          (Fulfilled two_files).

(** No token; a token set to the empty string. *)
Definition no_token : Ambient :=
  ambient None (Some "me") [alpha; beta] [mine] (Fulfilled two_files).

Definition empty_token : Ambient :=
  ambient (Some "") (Some "me") [alpha; beta] [mine] (Fulfilled two_files).

(** The entry of alpha, as the loop accumulates it in [alpha_beta]. *)
Definition alpha_entry : RepositoryReport :=
  mkReport "alpha" "Alpha" [bug] [mine] [fix_commit].

End Scenario.

(* ================================================================== *)
(** ** Words of the claims *)

(** A variable of the environment is absent when the process has no
    value for it; the script's check also takes the empty string for a
    missing value. *)
Definition absent (v : option string) : Prop := v = None.

Definition absent_or_empty (v : option string) : Prop :=
  v = None \/ v = Some EmptyString.

Definition begins_with (prefix s : string) : Prop :=
  exists rest, s = prefix ++ rest.

(** An attempt's entry carries the name and the label of its repository. *)
Definition labelled (a : Attempt) : Prop :=
  match snd a with
  | inr data => repo data = cfg_name (fst a) /\ label data = cfg_label (fst a)
  | inl _ => True
  end.

(** Two processes to which the commit-detail endpoint will answer alike,
    request after request, under the same account. *)
Definition same_file_answers (env1 : Ambient) (p1 : Proc) (env2 : Ambient)
    (p2 : Proc) : Prop :=
  env_GITHUB_USER env1 = env_GITHUB_USER env2
  /\ forall k url,
       commit_endpoint env1 (List.length (requests p1) + k) url
       = commit_endpoint env2 (List.length (requests p2) + k) url.

(* ================================================================== *)
(** ** Footprints

    What a stretch of the run leaves behind, between a state [p] and a
    later state [p']: so many readings of the clock, requests for these
    URLs, these lines on the two console streams, and the report file as
    it was. *)

Definition effects (env : Ambient) (p p' : Proc) (reads : nat)
    (urls out err : list string) : Prop :=
  clock_reads p' = clock_reads p + reads
  /\ requests p' = (requests p ++ map (headers env) urls)%list
  /\ stdout p' = (stdout p ++ out)%list
  /\ stderr p' = (stderr p ++ err)%list
  /\ report_md p' = report_md p.

(** The three requests of a repository's fetch, the clock having been
    read [k] times before. *)
Definition fetch_urls (env : Ambient) (name : string) (k : nat) : list string :=
  [issues_url env (env_GITHUB_USER env) name (clock env k);
   pulls_url (env_GITHUB_USER env) name (clock env (S k));
   commits_url env (env_GITHUB_USER env) name (clock env (S (S k)))].

(** The commit-detail requests of a report, in its order. *)
Definition commit_urls (env : Ambient) (allData : list RepositoryReport)
  : list string :=
  flat_map (fun data =>
              map (fun commit =>
                     commit_url (env_GITHUB_USER env) (repo data) (sha commit))
                  (commits data))
           allData.

(** The lines the loop writes for the attempts that failed. *)
Fixpoint failure_lines (tr : list Attempt) : list string :=
  match tr with
  | [] => []
  | (repoConfig, inl error) :: rest =>
      failure_line repoConfig error :: failure_lines rest
  | (_, inr _) :: rest => failure_lines rest
  end.

(** Under the REST root of the configured account. *)
Definition account_root (env : Ambient) : string :=
  "https://api.github.com/repos/" ++ template (env_GITHUB_USER env) ++ "/".

(** A request as every call site sends it. *)
Definition well_formed_request (env : Ambient) (r : Request) : Prop :=
  begins_with (account_root env) (req_url r)
  /\ req_authorization r = "token " ++ template (env_GITHUB_TOKEN env)
  /\ req_accept r = "application/vnd.github.v3+json".

Definition file_error_prefix : string :=
  "❌ Error obteniendo archivos del commit ".

(** The same surroundings under another token. *)
Definition with_token (token : option string) (env : Ambient) : Ambient :=
  mkAmbient token (env_GITHUB_USER env) (config_repos env) (report_path env)
    (clock env) (toLocaleDateString env) (issues_endpoint env)
    (pulls_endpoint env) (commits_endpoint env) (commit_endpoint env)
    (disk env).

(** Two states that differ at most in the Authorization header of the
    requests sent. *)
Definition same_but_authorization (p p' : Proc) : Prop :=
  clock_reads p = clock_reads p'
  /\ map req_url (requests p) = map req_url (requests p')
  /\ map req_accept (requests p) = map req_accept (requests p')
  /\ stdout p = stdout p'
  /\ stderr p = stderr p'
  /\ report_md p = report_md p'.

(** A computation the token does not reach but through that header. *)
Definition token_blind {A} (m : M A) (env : Ambient) (token : option string)
  : Prop :=
  forall p p',
    same_but_authorization p p' ->
    fst (m env p) = fst (m (with_token token env) p')
    /\ same_but_authorization (snd (m env p))
                              (snd (m (with_token token env) p')).

Unset Implicit Arguments.

(* ================================================================== *)
(** ** Strings *)

Lemma append_nil_r (s : string) : s ++ "" = s.
Proof. induction s as [|c s IH]; simpl; [reflexivity | now rewrite IH]. Qed.

Lemma append_assoc (a b c : string) : (a ++ b) ++ c = a ++ (b ++ c).
Proof. induction a as [|x a IH]; simpl; [reflexivity | now rewrite IH]. Qed.

Lemma occurs_append (c : ascii) (a b : string) :
  occurs c (a ++ b) = occurs c a || occurs c b.
Proof.
  induction a as [|x a IH]; simpl; [reflexivity|].
  now rewrite IH, orb_assoc.
Qed.

Lemma split_before_separator (sep : ascii) (a rest : string) :
  occurs sep a = false ->
  hd_error (split sep (a ++ String sep rest)) = Some a.
Proof.
  induction a as [|x a IH]; simpl; intros H.
  - now rewrite Ascii.eqb_refl.
  - apply orb_false_iff in H as [Hx Ha].
    rewrite Hx. specialize (IH Ha).
    destruct (split sep (a ++ String sep rest)) as [|piece pieces];
      simpl in *; congruence.
Qed.

Lemma zeros_free_of_T (n : nat) : occurs "T" (zeros n) = false.
Proof. induction n; simpl; auto. Qed.

Lemma digits_free_of_T (u : uint) :
  occurs "T" (NilEmpty.string_of_uint u) = false.
Proof. induction u; simpl; auto. Qed.

Lemma padded_free_of_T (width n : nat) :
  occurs "T" (padStart width (decimal n)) = false.
Proof.
  unfold padStart, decimal.
  now rewrite occurs_append, zeros_free_of_T, digits_free_of_T.
Qed.

Lemma iso_year_free_of_T (y : Z) : occurs "T" (iso_year y) = false.
Proof.
  unfold iso_year.
  destruct ((0 <=? y)%Z && (y <=? 9999)%Z).
  - apply padded_free_of_T.
  - rewrite occurs_append, padded_free_of_T.
    now destruct (y <? 0)%Z.
Qed.

Lemma iso_date_free_of_T (d : Date) : occurs "T" (iso_date d) = false.
Proof.
  unfold iso_date.
  rewrite !occurs_append, iso_year_free_of_T, !padded_free_of_T.
  reflexivity.
Qed.

(** [toISOString().split('T')[0]] is the ISO date of the reading. *)
Lemma today_is_iso_date (d : Date) : today_of d = iso_date d.
Proof.
  unfold today_of, first_piece.
  replace (toISOString d)
    with (iso_date d
          ++ String "T" (padStart 2 (decimal (utc_hours d)) ++ ":"
          ++ padStart 2 (decimal (utc_minutes d)) ++ ":"
          ++ padStart 2 (decimal (utc_seconds d)) ++ "."
          ++ padStart 3 (decimal (utc_milliseconds d)) ++ "Z")).
  - now rewrite split_before_separator by apply iso_date_free_of_T.
  - unfold toISOString, iso_date. now rewrite !append_assoc.
Qed.

(** Equations between texts built by concatenation. *)
Ltac text :=
  unfold LF;
  repeat first [ rewrite !append_assoc | rewrite !append_nil_r
               | progress cbn [append] ];
  reflexivity.

(* ================================================================== *)
(** ** Loops and sequencing *)

Lemma for_of_app {A S} (xs ys : list A) (body : A -> S -> M S) (s : S)
    (env : Ambient) (p : Proc) :
  for_of (xs ++ ys) body s env p
  = (s' <- for_of xs body s ;; for_of ys body s') env p.
Proof.
  revert s p. induction xs as [|x xs IH]; intros s p; simpl.
  - reflexivity.
  - unfold bind in *. destruct (body x s env p) as [[s'|e|c] p']; auto.
Qed.

(** A loop whose body only appends to the carried text. *)
Lemma for_of_appends {A} (xs : list A) (piece : A -> string) (content : string)
    (env : Ambient) (p : Proc) :
  for_of xs (fun x content => ret (content ++ piece x)) content env p
  = (Ok (content ++ glue (map piece xs)), p).
Proof.
  revert content. induction xs as [|x xs IH]; intros content; simpl.
  - unfold ret. now rewrite append_nil_r.
  - unfold bind, ret at 1. rewrite IH. now rewrite append_assoc.
Qed.

Lemma mapM_length {A B} (f : A -> M B) (xs : list A) (env : Ambient)
    (p p' : Proc) (ys : list B) :
  mapM f xs env p = (Ok ys, p') -> List.length ys = List.length xs.
Proof.
  revert p p' ys. induction xs as [|x xs IH]; intros p p' ys; simpl.
  - unfold ret. intros [= <- _]. reflexivity.
  - unfold bind.
    destruct (f x env p) as [[y|e|c] p1]; try discriminate.
    destruct (mapM f xs env p1) as [[ys'|e|c] p2] eqn:E; try discriminate.
    unfold ret. intros [= <- _]. simpl. f_equal. exact (IH _ _ _ E).
Qed.

(* ================================================================== *)
(** ** The File-Diff Fetcher *)

(** What [getModifiedFiles] does, by how the request settles. *)
Lemma getModifiedFiles_settles (owner : option string) (repo sha : string)
    (env : Ambient) (p : Proc) :
  getModifiedFiles owner repo sha env p
  = match commit_endpoint env (List.length (requests p))
            (commit_url owner repo sha) with
    | Fulfilled detail =>
        (Ok (filenames_or_empty detail),
         sent (headers env (commit_url owner repo sha)) p)
    | Rejected error =>
        (Ok [],
         complained ("❌ Error obteniendo archivos del commit " ++ sha ++ ": "
                     ++ Error_toString error)
           (sent (headers env (commit_url owner repo sha)) p))
    end.
Proof.
  unfold getModifiedFiles, try_catch, bind, axios_get, commit_url.
  destruct (commit_endpoint env _ _); reflexivity.
Qed.

Lemma getModifiedFiles_returns (owner : option string) (repo sha : string)
    (env : Ambient) (p : Proc) :
  exists paths p', getModifiedFiles owner repo sha env p = (Ok paths, p').
Proof.
  rewrite getModifiedFiles_settles.
  destruct (commit_endpoint env _ _); eauto.
Qed.

(* ================================================================== *)
(** ** The Report Generator against the document *)

Lemma commit_step_appends (data : RepositoryReport) (commit : Commit)
    (content : string) (env : Ambient) (p : Proc) :
  commit_step data commit content env p
  = (paths <- getModifiedFiles (env_GITHUB_USER env) (repo data) (sha commit) ;;
     ret (content ++ commit_block commit paths)) env p.
Proof.
  unfold commit_step, bind at 1 2 4, ask.
  destruct (getModifiedFiles _ _ _ env p) as [[paths|e|c] p']; auto.
  unfold commit_block, file_lines, bind.
  destruct paths as [|path paths].
  - cbn [List.length Nat.ltb Nat.leb]. unfold ret. do 2 f_equal. text.
  - cbn [List.length Nat.ltb Nat.leb].
    rewrite for_of_appends. unfold ret. do 2 f_equal. text.
Qed.

Lemma commits_loop_appends (data : RepositoryReport) (l : list Commit)
    (content : string) (env : Ambient) (p : Proc) :
  for_of l (commit_step data) content env p
  = (paths <- mapM (resolve_commit data) l ;;
     ret (content ++ glue (commit_blocks l paths))) env p.
Proof.
  revert content p. induction l as [|commit l IH]; intros content p.
  - cbn [for_of mapM]. unfold bind, ret, commit_blocks.
    cbn [combine map glue]. now rewrite append_nil_r.
  - cbn [for_of mapM]. unfold bind at 1. rewrite commit_step_appends.
    unfold resolve_commit at 1. unfold bind at 1 2 3 4, ask.
    destruct (getModifiedFiles _ _ _ env p) as [[paths|e|c] p1]; auto.
    unfold ret at 1. rewrite IH. unfold bind.
    destruct (mapM _ l env p1) as [[rest|e|c] p2]; auto.
    unfold ret, commit_blocks. cbn [combine map glue fst snd].
    now rewrite !append_assoc.
Qed.

Lemma repo_step_appends (data : RepositoryReport) (content : string)
    (env : Ambient) (p : Proc) :
  repo_step data content env p
  = (paths <- resolve_files data ;; ret (content ++ section data paths)) env p.
Proof.
  unfold repo_step, resolve_files, section.
  unfold repository_heading, issues_heading, prs_heading, commits_heading.
  assert (Hi : forall c q,
    (if (List.length (issues data) =? 0)%nat
     then ret (c ++ LF ++ "- Ninguno" ++ LF)
     else for_of (issues data)
            (fun issue content =>
               ret (content ++ LF ++ "- [" ++ issue_title issue ++ "]("
                    ++ issue_html_url issue ++ ")" ++ LF)) c) env q
    = (Ok (c ++ block (issue_items (issues data))), q)).
  { intros c q. destruct (issues data) as [|i l]; [reflexivity|].
    cbn [List.length Nat.eqb]. now rewrite for_of_appends. }
  assert (Hp : forall c q,
    (if (List.length (prs data) =? 0)%nat
     then ret (c ++ LF ++ "- Ninguno" ++ LF)
     else for_of (prs data)
            (fun pr content =>
               ret (content ++ LF ++ "- [" ++ pr_title pr ++ "]("
                    ++ pr_html_url pr ++ ")" ++ LF)) c) env q
    = (Ok (c ++ block (pr_items (prs data))), q)).
  { intros c q. destruct (prs data) as [|i l]; [reflexivity|].
    cbn [List.length Nat.eqb]. now rewrite for_of_appends. }
  unfold bind at 1. rewrite Hi. unfold bind at 1. rewrite Hp.
  destruct (commits data) as [|commit l].
  - cbn [List.length Nat.eqb mapM]. unfold bind, ret, commit_blocks.
    cbn [combine map block]. unfold placeholder. do 2 f_equal. text.
  - cbn [List.length Nat.eqb]. rewrite commits_loop_appends.
    unfold bind. destruct (mapM _ (commit :: l) env p) as [[paths|e|c] p1] eqn:E;
      auto.
    apply mapM_length in E. destruct paths as [|path paths]; [discriminate|].
    unfold ret, commit_blocks. cbn [combine map block]. do 2 f_equal. text.
Qed.

Lemma mapM_returns {A B} (f : A -> M B) (xs : list A) (env : Ambient) :
  (forall x p, exists y p', f x env p = (Ok y, p')) ->
  forall p, exists ys p', mapM f xs env p = (Ok ys, p').
Proof.
  intros Hf. induction xs as [|x xs IH]; intros p; cbn [mapM].
  - unfold ret. eauto.
  - unfold bind. destruct (Hf x p) as (y & p1 & ->).
    destruct (IH p1) as (ys & p2 & ->). unfold ret. eauto.
Qed.

Lemma resolve_files_returns (data : RepositoryReport) (env : Ambient)
    (p : Proc) :
  exists paths p', resolve_files data env p = (Ok paths, p').
Proof.
  apply mapM_returns. intros commit q. unfold resolve_commit, bind, ask.
  apply getModifiedFiles_returns.
Qed.

Lemma resolve_all_returns (allData : list RepositoryReport) (env : Ambient)
    (p : Proc) :
  exists paths p',
    resolve_all allData env p = (Ok paths, p')
    /\ List.length paths = List.length allData.
Proof.
  destruct (mapM_returns resolve_files allData env
              (fun data q => resolve_files_returns data env q) p)
    as (paths & p' & E).
  exists paths, p'. split; [exact E|]. exact (mapM_length _ _ _ _ _ _ E).
Qed.

Lemma mapM_Forall2 {A B} (f : A -> M B) (R : A -> B -> Prop) (env : Ambient) :
  (forall x p y p', f x env p = (Ok y, p') -> R x y) ->
  forall xs p ys p', mapM f xs env p = (Ok ys, p') -> Forall2 R xs ys.
Proof.
  intros Hf. induction xs as [|x xs IH]; intros p ys p'; cbn [mapM].
  - unfold ret. intros [= <- _]. constructor.
  - unfold bind.
    destruct (f x env p) as [[y|e|c] p1] eqn:F; try discriminate.
    destruct (mapM f xs env p1) as [[ys'|e|c] p2] eqn:E; try discriminate.
    unfold ret. intros [= <- _]. constructor.
    + exact (Hf _ _ _ _ F).
    + exact (IH _ _ _ E).
Qed.

(** Every commit of every repository gets a file list, empty or not. *)
Lemma resolve_all_shape (allData : list RepositoryReport) (env : Ambient)
    (p p' : Proc) (paths : list (list (list string))) :
  resolve_all allData env p = (Ok paths, p') ->
  Forall2 (fun data files_of =>
             List.length files_of = List.length (commits data))
          allData paths.
Proof.
  apply mapM_Forall2. intros data q files_of q' E.
  exact (mapM_length _ _ _ _ _ _ E).
Qed.

Lemma repos_loop_appends (allData : list RepositoryReport) (content : string)
    (env : Ambient) (p : Proc) :
  for_of allData repo_step content env p
  = (paths <- resolve_all allData ;;
     ret (content ++ glue (sections allData paths))) env p.
Proof.
  unfold resolve_all.
  revert content p. induction allData as [|data l IH]; intros content p.
  - cbn [for_of mapM]. unfold bind, ret, sections.
    cbn [combine map glue]. now rewrite append_nil_r.
  - cbn [for_of mapM]. unfold bind at 1. rewrite repo_step_appends.
    unfold bind at 1 2 3.
    destruct (resolve_files data env p) as [[paths|e|c] p1]; auto.
    unfold ret at 1. rewrite IH. unfold bind.
    destruct (mapM resolve_files l env p1) as [[rest|e|c] p2]; auto.
    unfold ret, sections. cbn [combine map glue fst snd].
    now rewrite !append_assoc.
Qed.

(** The text the generator hands to the write is the document over its
    input, the date string of the reading it takes, and the file lists it
    resolves on its way; the write settles the rest. *)
Lemma generateReport_writes (allData : list RepositoryReport) (env : Ambient)
    (p : Proc) :
  exists paths p1,
    resolve_all allData env (tick p) = (Ok paths, p1)
    /\ List.length paths = List.length allData
    /\ generateReport allData env p
       = report_written env
           (document (toLocaleDateString env (clock env (clock_reads p)))
                     allData paths) p1.
Proof.
  destruct (resolve_all_returns allData env (tick p)) as (paths & p1 & E & L).
  exists paths, p1. repeat split; auto.
  unfold generateReport, bind at 1 2 3, new_Date, ask.
  rewrite repos_loop_appends. unfold bind. rewrite E.
  unfold ret, fs_writeFile, console_log, report_written.
  replace ((("# Reporte Semanal de Actividades" ++ LF ++ LF) ++ "Fecha: "
            ++ toLocaleDateString env (clock env (clock_reads p)) ++ LF)
           ++ glue (sections allData paths))
    with (document (toLocaleDateString env (clock env (clock_reads p)))
                   allData paths)
    by (unfold document, header; text).
  destruct (disk env (report_path env) _); reflexivity.
Qed.

(** What the end of the generator leaves untouched, and what it adds. *)
Lemma report_written_frame (env : Ambient) (text : string) (p : Proc) :
  clock_reads (snd (report_written env text p)) = clock_reads p
  /\ requests (snd (report_written env text p)) = requests p
  /\ stderr (snd (report_written env text p)) = stderr p.
Proof.
  unfold report_written. destruct (disk env _ text); repeat split.
Qed.

Lemma report_written_fulfilled (env : Ambient) (text : string) (p : Proc) :
  write_fulfilled env text ->
  report_written env text p
  = (Ok tt, said ("✅ Reporte generado en: " ++ report_path env)
                 (wrote text p)).
Proof. unfold write_fulfilled, report_written. now intros ->. Qed.

Lemma report_written_rejected (env : Ambient) (text : string) (p : Proc)
    (error : Error) :
  disk env (report_path env) text = Rejected error ->
  report_written env text p = (Throw error, p).
Proof. unfold report_written. now intros ->. Qed.

(* ================================================================== *)
(** ** The Collectors *)

Lemma getClosedIssues_settles (owner : option string) (repo : string)
    (env : Ambient) (p : Proc) :
  let url := issues_url env owner repo (clock env (clock_reads p)) in
  getClosedIssues owner repo env p
  = match issues_endpoint env (List.length (requests p)) url with
    | Fulfilled data => (Ok data, sent (headers env url) (tick p))
    | Rejected error => (Throw error, sent (headers env url) (tick p))
    end.
Proof.
  unfold getClosedIssues, bind, new_Date, ask, axios_get, issues_url,
    window_start.
  rewrite today_is_iso_date. reflexivity.
Qed.

Lemma getTodaysCommits_settles (owner : option string) (repo : string)
    (env : Ambient) (p : Proc) :
  let url := commits_url env owner repo (clock env (clock_reads p)) in
  getTodaysCommits owner repo env p
  = match commits_endpoint env (List.length (requests p)) url with
    | Fulfilled data =>
        (Ok (map (fun commit =>
                    mkCommit (entry_sha commit) (entry_commit_message commit)
                             (entry_html_url commit)) data),
         sent (headers env url) (tick p))
    | Rejected error => (Throw error, sent (headers env url) (tick p))
    end.
Proof.
  unfold getTodaysCommits, bind, new_Date, ask, axios_get, commits_url,
    window_start.
  rewrite today_is_iso_date. cbn [requests tick].
  destruct (commits_endpoint env _ _); reflexivity.
Qed.

Lemma getMergedPRs_settles (owner : option string) (repo : string)
    (env : Ambient) (p : Proc) :
  let url := pulls_url owner repo (clock env (clock_reads p)) in
  getMergedPRs owner repo env p
  = match pulls_endpoint env (List.length (requests p)) url with
    | Fulfilled data =>
        Array_filter (merged_by (env_GITHUB_USER env)) data env
          (sent (headers env url) (tick p))
    | Rejected error => (Throw error, sent (headers env url) (tick p))
    end.
Proof.
  unfold getMergedPRs, bind, new_Date, ask, axios_get, pulls_url, window_start.
  rewrite today_is_iso_date. cbn [requests tick].
  destruct (pulls_endpoint env _ _); reflexivity.
Qed.

(** The filter's callback reads nothing and leaves no mark. *)
Lemma merged_by_settles (account : option string) (pr : PullRequest)
    (env : Ambient) (p : Proc) :
  merged_by account pr env p
  = (if orphan pr
     then Throw (cannot_read (match user pr with
                              | Null => "null" | _ => "undefined" end) "login")
     else Ok (truthy (merged_at pr) && authored_by account pr), p).
Proof.
  unfold merged_by, orphan, authored_by.
  destruct (truthy (merged_at pr)); [|reflexivity].
  destruct (user pr); reflexivity.
Qed.

(** Without an orphan entry the filter keeps the entries that are merged
    and authored by the account. *)
Lemma Array_filter_keeps (account : option string) (l : list PullRequest)
    (env : Ambient) (p : Proc) :
  forallb (fun pr => negb (orphan pr)) l = true ->
  Array_filter (merged_by account) l env p
  = (Ok (filter (fun pr => truthy (merged_at pr) && authored_by account pr) l),
     p).
Proof.
  induction l as [|pr l IH]; cbn [forallb Array_filter filter]; intros H.
  - reflexivity.
  - apply andb_true_iff in H as [Hpr Hl].
    unfold bind. rewrite merged_by_settles.
    destruct (orphan pr); [discriminate|].
    rewrite (IH Hl). reflexivity.
Qed.

(** With one, it throws a [TypeError], whatever else the list holds. *)
Lemma Array_filter_throws (account : option string) (l : list PullRequest)
    (env : Ambient) (p : Proc) :
  existsb orphan l = true ->
  exists error,
    Array_filter (merged_by account) l env p = (Throw error, p)
    /\ name error = "TypeError".
Proof.
  induction l as [|pr l IH]; cbn [existsb Array_filter]; intros H.
  - discriminate.
  - unfold bind. rewrite merged_by_settles.
    destruct (orphan pr) eqn:O.
    + eexists. split; reflexivity.
    + destruct (IH H) as (error & -> & N). eauto.
Qed.

Lemma Array_filter_never_exits (account : option string)
    (l : list PullRequest) (env : Ambient) (p : Proc) :
  exists o, Array_filter (merged_by account) l env p = (o, p)
            /\ forall code, o <> Exit code.
Proof.
  destruct (existsb orphan l) eqn:E.
  - destruct (Array_filter_throws account l env p E) as (error & -> & _).
    eexists. split; [reflexivity | discriminate].
  - rewrite Array_filter_keeps.
    + eexists. split; [reflexivity | discriminate].
    + clear -E. induction l as [|pr l IH]; cbn [existsb forallb] in *; auto.
      apply orb_false_iff in E as [-> E]. simpl. auto.
Qed.

(* ================================================================== *)
(** ** The loop over the configured repositories *)

Lemma fetch_repository_never_exits (repoConfig : RepoConfig) (env : Ambient)
    (p : Proc) (code : Z) (p' : Proc) :
  fetch_repository repoConfig env p <> (Exit code, p').
Proof.
  unfold fetch_repository, bind at 1 2, ask.
  rewrite getClosedIssues_settles. cbv zeta.
  destruct (issues_endpoint env _ _); [|discriminate].
  unfold bind at 1. rewrite getMergedPRs_settles. cbv zeta.
  destruct (pulls_endpoint env _ _); [|discriminate].
  destruct (Array_filter_never_exits (env_GITHUB_USER env) l0 env
              (sent (headers env
                 (pulls_url (env_GITHUB_USER env) (cfg_name repoConfig)
                    (clock env (clock_reads
                       (sent (headers env
                          (issues_url env (env_GITHUB_USER env)
                             (cfg_name repoConfig)
                             (clock env (clock_reads p)))) (tick p))))))
                 (tick (sent (headers env
                          (issues_url env (env_GITHUB_USER env)
                             (cfg_name repoConfig)
                             (clock env (clock_reads p)))) (tick p)))))
    as (o & -> & Ho).
  destruct o as [kept|e|c]; [|discriminate|now destruct (Ho c)].
  unfold bind. rewrite getTodaysCommits_settles. cbv zeta.
  destruct (commits_endpoint env _ _); discriminate.
Qed.

Lemma attempt_returns (repoConfig : RepoConfig) (env : Ambient) (p : Proc) :
  exists a p', attempt repoConfig env p = (Ok a, p').
Proof.
  unfold attempt, bind at 1, console_log, try_catch, bind.
  destruct (fetch_repository repoConfig env _) as [[data|e|c] p1] eqn:E.
  - unfold ret. eauto.
  - unfold console_error, ret. eauto.
  - now apply fetch_repository_never_exits in E.
Qed.

Lemma attempts_returns (repos : list RepoConfig) (env : Ambient) (p : Proc) :
  exists tr p', attempts repos env p = (Ok tr, p').
Proof.
  apply mapM_returns. intros r q. apply attempt_returns.
Qed.

Lemma attempts_in_order (repos : list RepoConfig) (env : Ambient)
    (p p' : Proc) (tr : list Attempt) :
  attempts repos env p = (Ok tr, p') -> map fst tr = repos.
Proof.
  unfold attempts.
  revert p p' tr. induction repos as [|r repos IH]; intros p p' tr; cbn [mapM].
  - unfold ret. intros [= <- _]. reflexivity.
  - unfold bind.
    destruct (attempt r env p) as [[a|e|c] p1] eqn:A; try discriminate.
    destruct (mapM attempt repos env p1) as [[tr'|e|c] p2] eqn:E;
      try discriminate.
    unfold ret. intros [= <- _]. cbn [map]. f_equal; [|exact (IH _ _ _ E)].
    revert A. unfold attempt, try_catch, console_log, console_error, bind, ret.
    destruct (fetch_repository r env _) as [[data|e|c] q]; now intros [= <- _].
Qed.

(** The body of the loop is an attempt, pushed when it gave an entry. *)
Lemma fetch_step_attempt (repoConfig : RepoConfig)
    (allData : list RepositoryReport) (env : Ambient) (p : Proc) :
  fetch_step repoConfig allData env p
  = (a <- attempt repoConfig ;; ret (allData ++ successes [a])%list) env p.
Proof.
  unfold fetch_step, attempt, fetch_repository, progress_line, failure_line.
  unfold try_catch, console_log, console_error, ask, bind.
  destruct (getClosedIssues _ _ env _) as [[i|e|c] p1];
    [ destruct (getMergedPRs _ _ env _) as [[r|e|c] p2];
      [ destruct (getTodaysCommits _ _ env _) as [[k|e|c] p3] | | ] | | ];
    try reflexivity; unfold ret; cbn [successes]; now rewrite app_nil_r.
Qed.

Lemma successes_app (xs ys : list Attempt) :
  successes (xs ++ ys) = (successes xs ++ successes ys)%list.
Proof.
  induction xs as [|[r [e|d]] xs IH]; simpl; congruence.
Qed.

(** The loop accumulates the entries of the attempts that succeeded. *)
Lemma fetch_loop_attempts (repos : list RepoConfig)
    (allData : list RepositoryReport) (env : Ambient) (p : Proc) :
  for_of repos fetch_step allData env p
  = (tr <- attempts repos ;; ret (allData ++ successes tr)%list) env p.
Proof.
  unfold attempts.
  revert allData p. induction repos as [|r repos IH]; intros allData p.
  - cbn [for_of mapM]. unfold bind, ret. cbn [successes].
    now rewrite app_nil_r.
  - cbn [for_of mapM]. unfold bind at 1. rewrite fetch_step_attempt.
    unfold bind at 1 2 3 4.
    destruct (attempt r env p) as [[a|e|c] p1]; auto.
    unfold ret at 1. rewrite IH. unfold bind.
    destruct (mapM attempt repos env p1) as [[tr|e|c] p2]; auto.
    unfold ret. change (a :: tr) with ([a] ++ tr)%list.
    now rewrite successes_app, app_assoc.
Qed.

Lemma mapM_app {A B} (f : A -> M B) (xs ys : list A) (env : Ambient)
    (p : Proc) :
  mapM f (xs ++ ys) env p
  = (a <- mapM f xs ;; b <- mapM f ys ;; ret (a ++ b)%list) env p.
Proof.
  revert p. induction xs as [|x xs IH]; intros p; cbn [Datatypes.app mapM].
  - unfold bind, ret. destruct (mapM f ys env p) as [[b|e|c] q]; reflexivity.
  - unfold bind, ret in *. destruct (f x env p) as [[y|e|c] p1]; auto.
    rewrite IH.
    destruct (mapM f xs env p1) as [[a|e|c] p2]; auto.
    destruct (mapM f ys env p2) as [[b|e|c] p3]; reflexivity.
Qed.

Lemma failed_attempts_give_nothing (tr : list Attempt) :
  Forall failed tr -> successes tr = [].
Proof.
  induction 1 as [|[r a] tr [e E] _ IH]; [reflexivity|].
  simpl in E. subst a. exact IH.
Qed.

(** The script after the credentials check. *)
Lemma script_checks_credentials (env : Ambient) (p : Proc) :
  script env p
  = if credentials_missing env then (Exit 1%Z, complained missing_line p)
    else main env p.
Proof.
  unfold script, credentials_missing, bind at 1 2 3, ask.
  destruct (negb (truthy_env (env_GITHUB_TOKEN env))
            || negb (truthy_env (env_GITHUB_USER env))); reflexivity.
Qed.

(** [main], by the attempts of its loop and the files resolved for the
    report. *)
Lemma main_runs (env : Ambient) (p : Proc) :
  exists tr p1 paths p2,
    attempts (config_repos env) env p = (Ok tr, p1)
    /\ resolve_all (successes tr) env (tick p1) = (Ok paths, p2)
    /\ List.length paths = List.length (successes tr)
    /\ for_of (config_repos env) fetch_step [] env p = (Ok (successes tr), p1)
    /\ main env p
       = report_written env
           (document (toLocaleDateString env (clock env (clock_reads p1)))
                     (successes tr) paths) p2.
Proof.
  destruct (attempts_returns (config_repos env) env p) as (tr & p1 & A).
  destruct (generateReport_writes (successes tr) env p1)
    as (paths & p2 & R & L & G).
  exists tr, p1, paths, p2.
  assert (F : for_of (config_repos env) fetch_step [] env p
              = (Ok (successes tr), p1)).
  { rewrite fetch_loop_attempts. unfold bind. rewrite A. reflexivity. }
  repeat split; auto.
  unfold main, bind at 1 2, ask. rewrite F. exact G.
Qed.

(* ================================================================== *)
(** ** The claims *)

(** C5.  For every commit identifier, the File-Diff Fetcher returns the
    filenames of the commit-detail payload's file entries, in order, when
    the payload has a file list; the empty sequence when it has none; and
    on a failed request it logs the error and returns the empty sequence
    instead of throwing.  Whatever the requests for file lists do, the
    Report Generator reaches the write of the report with the document
    that has a file list, empty or not, for every commit of every
    repository; a fulfilled write leaves that document in the file. *)
Theorem getModifiedFiles_never_throws (owner : option string)
    (repo sha : string) (allData : list RepositoryReport) (env : Ambient)
    (p : Proc) :
  let url := commit_url owner repo sha in
  let answer := commit_endpoint env (List.length (requests p)) url in
  (forall entries,
      answer = Fulfilled (mkCommitDetail (Present entries)) ->
      getModifiedFiles owner repo sha env p
      = (Ok (map filename entries), sent (headers env url) p))
  /\ (forall detail,
         answer = Fulfilled detail -> nullish (files detail) = true ->
         getModifiedFiles owner repo sha env p
         = (Ok [], sent (headers env url) p))
  /\ (forall error,
         answer = Rejected error ->
         getModifiedFiles owner repo sha env p
         = (Ok [],
            complained ("❌ Error obteniendo archivos del commit " ++ sha
                        ++ ": " ++ Error_toString error)
              (sent (headers env url) p)))
  /\ (exists paths p1,
         let text :=
           document (toLocaleDateString env (clock env (clock_reads p)))
                    allData paths in
         resolve_all allData env (tick p) = (Ok paths, p1)
         /\ generateReport allData env p = report_written env text p1
         /\ (write_fulfilled env text ->
             exists final,
               generateReport allData env p = (Ok tt, final)
               /\ report_md final = Some text)
         /\ Forall2 (fun data files_of =>
                       List.length files_of = List.length (commits data))
                    allData paths).
Proof.
  cbv zeta. split; [|split; [|split]].
  - intros entries E. now rewrite getModifiedFiles_settles, E.
  - intros detail E N. rewrite getModifiedFiles_settles, E.
    unfold filenames_or_empty. destruct (files detail); [auto | auto |].
    discriminate.
  - intros error E. now rewrite getModifiedFiles_settles, E.
  - destruct (generateReport_writes allData env p) as (paths & p1 & R & _ & G).
    exists paths, p1. split; [exact R|]. split; [exact G|]. split.
    + intros W. rewrite G, (report_written_fulfilled _ _ _ W).
      eexists. split; reflexivity.
    + exact (resolve_all_shape _ _ _ _ _ R).
Qed.

Lemma getModifiedFiles_never_throws_witness :
  getModifiedFiles (Some "me") "alpha" "abc" Scenario.alpha_beta fresh
  = (Ok ["a.ts"; "b.md"],
     sent (headers Scenario.alpha_beta
             "https://api.github.com/repos/me/alpha/commits/abc") fresh)
  /\ getModifiedFiles (Some "me") "alpha" "abc" Scenario.no_file_list fresh
     = (Ok [],
        sent (headers Scenario.no_file_list
                "https://api.github.com/repos/me/alpha/commits/abc") fresh)
  /\ getModifiedFiles (Some "me") "alpha" "abc" Scenario.detail_down fresh
     = (Ok [],
        complained
          "❌ Error obteniendo archivos del commit abc: AxiosError: Request failed with status code 404"
          (sent (headers Scenario.detail_down
                   "https://api.github.com/repos/me/alpha/commits/abc") fresh))
  /\ exists final,
       generateReport [Scenario.alpha_entry] Scenario.detail_down fresh
       = (Ok tt, final)
       /\ report_md final
          = Some (document "7/11/2024" [Scenario.alpha_entry] [[[]]]).
Proof.
  split; [|split; [|split]].
  - apply (proj1 (getModifiedFiles_never_throws (Some "me") "alpha" "abc" []
                    Scenario.alpha_beta fresh)
             [mkFileDiff "a.ts"; mkFileDiff "b.md"]).
    reflexivity.
  - apply (proj1 (proj2 (getModifiedFiles_never_throws (Some "me") "alpha"
                           "abc" [] Scenario.no_file_list fresh))
             (mkCommitDetail Absent)); reflexivity.
  - apply (proj1 (proj2 (proj2
             (getModifiedFiles_never_throws (Some "me") "alpha" "abc" []
                Scenario.detail_down fresh))) Scenario.not_found).
    reflexivity.
  - destruct (proj2 (proj2 (proj2
               (getModifiedFiles_never_throws (Some "me") "alpha" "abc"
                  [Scenario.alpha_entry] Scenario.detail_down fresh))))
      as (paths & p1 & R & _ & W & _).
    assert (P : paths = [[[]]]).
    { vm_compute in R. now injection R as <-. }
    subst paths. apply W. reflexivity.
Defined.

(** C8.  Each of the three Collectors reads the clock when it is called,
    once, and the request it sends carries, as its "since" parameter, the
    ISO 8601 date of that reading in UTC followed by T00:00:00Z. *)
Theorem collectors_window_starts_at_utc_midnight (owner : option string)
    (repo : string) (env : Ambient) (p : Proc) :
  let now := clock env (clock_reads p) in
  let since := "&since=" ++ iso_date now ++ "T00:00:00Z" in
  let base := "https://api.github.com/repos/" ++ template owner ++ "/" ++ repo in
  (exists o,
      getClosedIssues owner repo env p
      = (o, sent (headers env
                    (base ++ "/issues?state=closed&creator="
                     ++ template (env_GITHUB_USER env) ++ since))
              (tick p)))
  /\ (exists o,
         getMergedPRs owner repo env p
         = (o, sent (headers env (base ++ "/pulls?state=closed" ++ since))
                 (tick p)))
  /\ (exists o,
         getTodaysCommits owner repo env p
         = (o, sent (headers env
                       (base ++ "/commits?author="
                        ++ template (env_GITHUB_USER env) ++ since))
                 (tick p))).
Proof.
  cbv zeta. repeat split.
  - rewrite getClosedIssues_settles. cbv zeta.
    unfold issues_url, window_start.
    replace (("https://api.github.com/repos/" ++ template owner ++ "/" ++ repo)
             ++ "/issues?state=closed&creator="
             ++ template (env_GITHUB_USER env) ++ "&since="
             ++ iso_date (clock env (clock_reads p)) ++ "T00:00:00Z")
      with ("https://api.github.com/repos/" ++ template owner ++ "/" ++ repo
            ++ "/issues?state=closed&creator="
            ++ template (env_GITHUB_USER env) ++ "&since="
            ++ iso_date (clock env (clock_reads p)) ++ "T00:00:00Z")
      by text.
    destruct (issues_endpoint env _ _); eauto.
  - rewrite getMergedPRs_settles. cbv zeta.
    unfold pulls_url, window_start.
    replace (("https://api.github.com/repos/" ++ template owner ++ "/" ++ repo)
             ++ "/pulls?state=closed" ++ "&since="
             ++ iso_date (clock env (clock_reads p)) ++ "T00:00:00Z")
      with ("https://api.github.com/repos/" ++ template owner ++ "/" ++ repo
            ++ "/pulls?state=closed&since="
            ++ iso_date (clock env (clock_reads p)) ++ "T00:00:00Z")
      by text.
    destruct (pulls_endpoint env _ _) as [data|error]; [|eauto].
    destruct (Array_filter_never_exits (env_GITHUB_USER env) data env
                (sent (headers env
                   ("https://api.github.com/repos/" ++ template owner ++ "/"
                    ++ repo ++ "/pulls?state=closed&since="
                    ++ iso_date (clock env (clock_reads p)) ++ "T00:00:00Z"))
                   (tick p))) as (o & -> & _).
    eauto.
  - rewrite getTodaysCommits_settles. cbv zeta.
    unfold commits_url, window_start.
    replace (("https://api.github.com/repos/" ++ template owner ++ "/" ++ repo)
             ++ "/commits?author="
             ++ template (env_GITHUB_USER env) ++ "&since="
             ++ iso_date (clock env (clock_reads p)) ++ "T00:00:00Z")
      with ("https://api.github.com/repos/" ++ template owner ++ "/" ++ repo
            ++ "/commits?author="
            ++ template (env_GITHUB_USER env) ++ "&since="
            ++ iso_date (clock env (clock_reads p)) ++ "T00:00:00Z")
      by text.
    destruct (commits_endpoint env _ _); eauto.
Qed.

(** In a year of four digits the date reads YYYY-MM-DD. *)
Example window_start_example :
  window_start Scenario.late = "2024-11-07T00:00:00Z".
Proof. reflexivity. Qed.

(** A run across midnight UTC: the third Collector of one repository
    asks for another day than the first two. *)
Example windows_across_midnight :
  map req_url
      (requests (snd (fetch_repository Scenario.alpha Scenario.alpha_beta fresh)))
  = ["https://api.github.com/repos/me/alpha/issues?state=closed&creator=me&since=2024-11-07T00:00:00Z";
     "https://api.github.com/repos/me/alpha/pulls?state=closed&since=2024-11-07T00:00:00Z";
     "https://api.github.com/repos/me/alpha/commits?author=me&since=2024-11-08T00:00:00Z"].
Proof. reflexivity. Qed.

Lemma falsy_env (v : option string) :
  truthy_env v = false <-> absent_or_empty v.
Proof.
  unfold absent_or_empty. destruct v as [[|c s]|]; simpl; split; intros H;
    auto; try discriminate; destruct H; discriminate.
Qed.

Lemma credentials_missing_iff (env : Ambient) :
  credentials_missing env = true
  <-> absent_or_empty (env_GITHUB_TOKEN env)
      \/ absent_or_empty (env_GITHUB_USER env).
Proof.
  unfold credentials_missing.
  rewrite orb_true_iff, !negb_true_iff, !falsy_env. reflexivity.
Qed.

(** C4, as the script has it.  If either credential is absent or is the
    empty string, the process prints the error message and ends with exit
    status 1 without having issued a request; if both are present and not
    empty, the credentials check ends nothing: the script goes on into
    [main], which never ends the process through [process.exit] and runs
    to its end whenever the report file can be written. *)
Theorem credentials_are_checked_first (env : Ambient) :
  (absent_or_empty (env_GITHUB_TOKEN env)
   \/ absent_or_empty (env_GITHUB_USER env) ->
   run env = (Exit 1%Z, complained missing_line fresh)
   /\ exit_status (fst (run env)) = 1%Z
   /\ requests (snd (run env)) = []
   /\ stderr (snd (run env)) = [missing_line])
  /\ (~ (absent_or_empty (env_GITHUB_TOKEN env)
         \/ absent_or_empty (env_GITHUB_USER env)) ->
      run env = main env fresh
      /\ (forall code, fst (run env) <> Exit code)
      /\ ((forall text, write_fulfilled env text) -> fst (run env) = Ok tt)).
Proof.
  unfold run. rewrite script_checks_credentials. split; intros H.
  - apply credentials_missing_iff in H. rewrite H. repeat split.
  - destruct (credentials_missing env) eqn:E.
    + apply credentials_missing_iff in E. contradiction.
    + destruct (main_runs env fresh)
        as (tr & p1 & paths & p2 & _ & _ & _ & _ & ->).
      split; [reflexivity|]. split.
      * intros code. unfold report_written.
        destruct (disk env _ _); discriminate.
      * intros W. now rewrite (report_written_fulfilled _ _ _ (W _)).
Qed.

Lemma credentials_are_checked_first_witness :
  (run Scenario.no_token = (Exit 1%Z, complained missing_line fresh)
   /\ exit_status (fst (run Scenario.no_token)) = 1%Z
   /\ requests (snd (run Scenario.no_token)) = []
   /\ stderr (snd (run Scenario.no_token)) = [missing_line])
  /\ (run Scenario.alpha_beta = main Scenario.alpha_beta fresh
      /\ (forall code, fst (run Scenario.alpha_beta) <> Exit code)
      /\ fst (run Scenario.alpha_beta) = Ok tt).
Proof.
  split.
  - apply (proj1 (credentials_are_checked_first Scenario.no_token)).
    left. left. reflexivity.
  - destruct (proj2 (credentials_are_checked_first Scenario.alpha_beta))
      as (Mn & NoExit & Done).
    + intros [[H|H]|[H|H]]; discriminate H.
    + split; [exact Mn|]. split; [exact NoExit|].
      apply Done. intros text. reflexivity.
Defined.

(** C4 as stated fails: with the token present in the environment but
    empty, neither credential is absent and the process still ends with
    exit status 1. *)
Lemma empty_token_aborts :
  ~ (absent (env_GITHUB_TOKEN Scenario.empty_token)
     \/ absent (env_GITHUB_USER Scenario.empty_token))
  /\ run Scenario.empty_token = (Exit 1%Z, complained missing_line fresh)
  /\ exit_status (fst (run Scenario.empty_token)) = 1%Z.
Proof.
  split; [|split; reflexivity].
  intros [H|H]; discriminate H.
Qed.

(** C10, as the script has it.  When the credentials are in place and
    every configured repository fails to fetch, or none is configured,
    the script still calls the Report Generator, on the empty list, and
    the generator hands the write of the report the title and the date
    line only; when that write is fulfilled the report file holds exactly
    this text and the exit status is 0. *)
Theorem nothing_fetched_still_reports (env : Ambient) (tr : list Attempt)
    (p1 : Proc) :
  credentials_missing env = false ->
  attempts (config_repos env) env fresh = (Ok tr, p1) ->
  Forall failed tr ->
  let text := header (toLocaleDateString env (clock env (clock_reads p1))) in
  run env = generateReport [] env p1
  /\ run env = report_written env text (tick p1)
  /\ (write_fulfilled env text ->
      report_md (snd (run env)) = Some text
      /\ exit_status (fst (run env)) = 0%Z).
Proof.
  intros C A F text. unfold run. rewrite script_checks_credentials, C.
  assert (L : for_of (config_repos env) fetch_step [] env fresh = (Ok [], p1)).
  { rewrite fetch_loop_attempts. unfold bind. rewrite A.
    now rewrite (failed_attempts_give_nothing _ F). }
  assert (E : main env fresh = generateReport [] env p1).
  { unfold main, bind at 1 2, ask. now rewrite L. }
  assert (G : generateReport [] env p1 = report_written env text (tick p1)).
  { destruct (generateReport_writes [] env p1) as (paths & p2 & R & _ & ->).
    unfold resolve_all in R. cbn [mapM] in R. unfold ret in R.
    injection R as <- <-. unfold document, sections. cbn [combine map glue].
    now rewrite append_nil_r. }
  rewrite E. split; [reflexivity|]. split; [exact G|].
  intros W. rewrite G, (report_written_fulfilled _ _ _ W).
  split; reflexivity.
Qed.

Lemma nothing_fetched_still_reports_witness :
  run Scenario.only_beta
  = generateReport [] Scenario.only_beta
      (snd (attempts [Scenario.beta; Scenario.beta] Scenario.only_beta fresh))
  /\ report_md (snd (run Scenario.only_beta))
     = Some (header "7/11/2024")
  /\ exit_status (fst (run Scenario.only_beta)) = 0%Z.
Proof.
  destruct (nothing_fetched_still_reports Scenario.only_beta
              [(Scenario.beta, inl Scenario.not_found);
               (Scenario.beta, inl Scenario.not_found)]
              (snd (attempts [Scenario.beta; Scenario.beta] Scenario.only_beta
                      fresh))) as (G & _ & W).
  - reflexivity.
  - vm_compute. reflexivity.
  - repeat constructor; exists Scenario.not_found; reflexivity.
  - split; [exact G|]. apply W. reflexivity.
Defined.

(** C10 as stated fails: with no repository configured and the report
    file write-protected, the Report Generator is called on the empty
    list, its write is rejected, no report file exists afterwards and the
    process ends with exit status 1. *)
Lemma nothing_fetched_and_write_rejected :
  credentials_missing Scenario.nothing_read_only = false
  /\ config_repos Scenario.nothing_read_only = []
  /\ run Scenario.nothing_read_only
     = generateReport [] Scenario.nothing_read_only fresh
  /\ fst (run Scenario.nothing_read_only) = Throw Scenario.no_permission
  /\ report_md (snd (run Scenario.nothing_read_only)) = None
  /\ exit_status (fst (run Scenario.nothing_read_only)) = 1%Z.
Proof. repeat split. Qed.

(* ================================================================== *)
(** ** Sections of the report *)

Lemma linked_item_is_no_placeholder (title url : string) :
  linked_item title url <> placeholder.
Proof. unfold linked_item, placeholder, LF. cbn [append]. discriminate. Qed.

Lemma no_placeholder_among_items {A} (item : A -> string * string)
    (l : list A) :
  ~ In placeholder (map (fun x => linked_item (fst (item x)) (snd (item x))) l).
Proof.
  intros H. apply in_map_iff in H as (x & E & _).
  exact (@linked_item_is_no_placeholder _ _ E).
Qed.

(** C7.  In the report the generator assembles and hands to the write,
    and which a fulfilled write leaves in the file, the section of every
    RepositoryReport has, under its Issues heading (respectively its
    Merged-PRs heading), exactly the fixed placeholder when the list is
    empty, and otherwise exactly one linked list item per entry, in order,
    none of which is the placeholder. *)
Theorem empty_lists_render_the_placeholder (allData : list RepositoryReport)
    (env : Ambient) (p : Proc) :
  exists paths p1,
    let text :=
      header (toLocaleDateString env (clock env (clock_reads p)))
      ++ glue (sections allData paths) in
    generateReport allData env p = report_written env text p1
    /\ List.length paths = List.length allData
    /\ (write_fulfilled env text ->
        exists final,
          generateReport allData env p = (Ok tt, final)
          /\ report_md final = Some text)
    /\ forall data files_of, In (data, files_of) (combine allData paths) ->
       exists issues_part prs_part commits_part,
         section data files_of
         = repository_heading (label data) (repo data)
           ++ issues_heading (label data) ++ issues_part
           ++ prs_heading (label data) ++ prs_part
           ++ commits_heading (label data) ++ commits_part
         /\ (issues data = [] -> issues_part = placeholder)
         /\ (issues data <> [] ->
             issues_part
             = glue (map (fun issue =>
                            linked_item (issue_title issue)
                                        (issue_html_url issue)) (issues data))
             /\ ~ In placeholder (issue_items (issues data)))
         /\ (prs data = [] -> prs_part = placeholder)
         /\ (prs data <> [] ->
             prs_part
             = glue (map (fun pr => linked_item (pr_title pr) (pr_html_url pr))
                         (prs data))
             /\ ~ In placeholder (pr_items (prs data))).
Proof.
  destruct (generateReport_writes allData env p) as (paths & p1 & _ & L & G).
  exists paths, p1. cbv zeta. split; [exact G|]. split; [exact L|].
  split.
  { intros W. rewrite G.
    unfold document. rewrite (report_written_fulfilled _ _ _ W).
    eexists. split; reflexivity. }
  intros data files_of _.
  exists (block (issue_items (issues data))), (block (pr_items (prs data))),
         (block (commit_blocks (commits data) files_of)).
  split; [reflexivity|].
  repeat split.
  - now intros ->.
  - destruct (issues data); [congruence | reflexivity].
  - apply (no_placeholder_among_items
             (fun issue => (issue_title issue, issue_html_url issue))).
  - now intros ->.
  - destruct (prs data); [congruence | reflexivity].
  - apply (no_placeholder_among_items
             (fun pr => (pr_title pr, pr_html_url pr))).
Qed.

Lemma empty_lists_render_the_placeholder_witness :
  exists issues_part prs_part commits_part,
    section (mkReport "alpha" "Alpha" [] [Scenario.mine] [])
            []
    = repository_heading "Alpha" "alpha"
      ++ issues_heading "Alpha" ++ issues_part
      ++ prs_heading "Alpha" ++ prs_part
      ++ commits_heading "Alpha" ++ commits_part
    /\ issues_part = placeholder
    /\ prs_part
       = linked_item "Mine" "https://github.com/me/alpha/pull/2".
Proof.
  destruct (empty_lists_render_the_placeholder
              [mkReport "alpha" "Alpha" [] [Scenario.mine] []]
              Scenario.alpha_beta fresh)
    as (paths & p1 & _ & L & _ & H).
  destruct paths as [|files_of [|more paths]]; try discriminate L.
  destruct (H (mkReport "alpha" "Alpha" [] [Scenario.mine] []) files_of
              (or_introl eq_refl))
    as (issues_part & prs_part & commits_part & E & I0 & _ & _ & P1).
  exists issues_part, prs_part, commits_part.
  split; [|split].
  - transitivity
      (section (mkReport "alpha" "Alpha" [] [Scenario.mine] []) files_of);
      [reflexivity | exact E].
  - apply I0. reflexivity.
  - destruct P1 as [-> _]; [discriminate | reflexivity].
Defined.

(* ================================================================== *)
(** ** Failures of a fetch *)

Lemma attempts_app (xs ys : list RepoConfig) (env : Ambient) (p p1 p2 : Proc)
    (t1 t2 : list Attempt) :
  attempts xs env p = (Ok t1, p1) ->
  attempts ys env p1 = (Ok t2, p2) ->
  attempts (xs ++ ys) env p = (Ok (t1 ++ t2)%list, p2).
Proof.
  unfold attempts. intros X Y. rewrite mapM_app. unfold bind.
  now rewrite X, Y.
Qed.

Lemma attempt_failing (r : RepoConfig) (env : Ambient) (p p' : Proc)
    (error : Error) :
  fetch_repository r env (said (progress_line r) p) = (Throw error, p') ->
  attempt r env p = (Ok (r, inl error), complained (failure_line r error) p').
Proof.
  intros F. unfold attempt, bind at 1, console_log, try_catch, bind.
  now rewrite F.
Qed.

Lemma attempts_one (r : RepoConfig) (env : Ambient) (p p' : Proc)
    (a : Attempt) :
  attempt r env p = (Ok a, p') -> attempts [r] env p = (Ok [a], p').
Proof. intros A. unfold attempts. cbn [mapM]. unfold bind. now rewrite A. Qed.

Lemma fetch_repository_labels (r : RepoConfig) (env : Ambient) (p p' : Proc)
    (data : RepositoryReport) :
  fetch_repository r env p = (Ok data, p') ->
  repo data = cfg_name r /\ label data = cfg_label r.
Proof.
  unfold fetch_repository, ask, bind.
  destruct (getClosedIssues _ _ env _) as [[i|e|c] p1]; try discriminate.
  destruct (getMergedPRs _ _ env _) as [[m|e|c] p2]; try discriminate.
  destruct (getTodaysCommits _ _ env _) as [[k|e|c] p3]; try discriminate.
  unfold ret. intros [= <- _]. split; reflexivity.
Qed.

Lemma attempt_labelled (r : RepoConfig) (env : Ambient) (p p' : Proc)
    (a : Attempt) :
  attempt r env p = (Ok a, p') -> fst a = r /\ labelled a.
Proof.
  unfold attempt, bind at 1, console_log, try_catch, bind.
  destruct (fetch_repository r env _) as [[data|e|c] p1] eqn:F.
  - unfold ret. intros [= <- _]. split; [reflexivity|].
    exact (fetch_repository_labels _ _ _ _ _ F).
  - unfold console_error, ret. intros [= <- _]. split; [reflexivity|exact I].
  - discriminate.
Qed.

Lemma attempts_labelled (repos : list RepoConfig) (env : Ambient)
    (p p' : Proc) (tr : list Attempt) :
  attempts repos env p = (Ok tr, p') -> Forall labelled tr.
Proof.
  unfold attempts.
  revert p p' tr. induction repos as [|r repos IH]; intros p p' tr; cbn [mapM].
  - unfold ret. intros [= <- _]. constructor.
  - unfold bind.
    destruct (attempt r env p) as [[a|e|c] p1] eqn:A; try discriminate.
    destruct (mapM attempt repos env p1) as [[tr'|e|c] p2] eqn:E;
      try discriminate.
    unfold ret. intros [= <- _]. constructor.
    + exact (proj2 (attempt_labelled _ _ _ _ _ A)).
    + exact (IH _ _ _ E).
Qed.

(** One section per successful attempt, each under the heading of its
    repository. *)
Lemma sections_follow_successes (tr : list Attempt)
    (paths : list (list (list string))) :
  Forall labelled tr ->
  List.length paths = List.length (successes tr) ->
  Forall2 (fun r text =>
             begins_with (repository_heading (cfg_label r) (cfg_name r)) text)
          (succeeded tr) (sections (successes tr) paths).
Proof.
  intros H. revert paths.
  induction H as [|[r [e|data]] tr La _ IH]; intros paths L.
  - constructor.
  - exact (IH paths L).
  - cbn [successes succeeded] in *.
    destruct paths as [|files_of paths]; [discriminate|].
    unfold sections. cbn [combine map fst snd]. constructor.
    + destruct La as [Hr Hl]. cbn [snd fst] in Hr, Hl.
      unfold section. rewrite Hr, Hl. eexists. reflexivity.
    + apply IH. now injection L.
Qed.

(** C2, as the script has it.  In a run that gets past the credentials
    check: when the fetch of a configured repository throws, whichever of
    its three Collectors threw, the error is caught and reported on the
    error stream with the repository's name, the accumulated list is the
    same after that repository as before it, every repository configured
    after it is still attempted, and the Report Generator hands the write
    the document of the other repositories' entries only; when that
    write is fulfilled, the file holds this document and the process ends
    with exit status 0. *)
Theorem failed_fetch_is_contained (env : Ambient)
    (pre : list RepoConfig) (r : RepoConfig) (post : list RepoConfig)
    (before : list Attempt) (p p' : Proc) (error : Error) :
  credentials_missing env = false ->
  config_repos env = (pre ++ r :: post)%list ->
  attempts pre env fresh = (Ok before, p) ->
  fetch_repository r env (said (progress_line r) p) = (Throw error, p') ->
  let logged := complained (failure_line r error) p' in
  exists after q paths p2,
    let text :=
      document (toLocaleDateString env (clock env (clock_reads q)))
               (successes before ++ successes after)%list paths in
    for_of pre fetch_step [] env fresh = (Ok (successes before), p)
    /\ fetch_step r (successes before) env p = (Ok (successes before), logged)
    /\ attempts post env logged = (Ok after, q)
    /\ map fst after = post
    /\ for_of (config_repos env) fetch_step [] env fresh
       = (Ok (successes before ++ successes after)%list, q)
    /\ run env = report_written env text p2
    /\ List.length paths
       = List.length (successes before ++ successes after)%list
    /\ (write_fulfilled env text ->
        exists final,
          run env = (Ok tt, final)
          /\ report_md final = Some text
          /\ exit_status (fst (run env)) = 0%Z).
Proof.
  intros C R B F logged.
  pose proof (attempt_failing _ _ _ _ _ F) as A. fold logged in A.
  destruct (attempts_returns post env logged) as (after & q & P).
  assert (T : attempts (config_repos env) env fresh
              = (Ok (before ++ (r, inl error) :: after)%list, q)).
  { rewrite R. apply (attempts_app _ _ _ _ _ _ _ _ B).
    change (r :: post) with ([r] ++ post)%list.
    change ((r, inl error) :: after)
      with ([(r, @inl Error RepositoryReport error)] ++ after)%list.
    exact (attempts_app _ _ _ _ _ _ _ _ (attempts_one _ _ _ _ _ A) P). }
  assert (Loop : for_of (config_repos env) fetch_step [] env fresh
                 = (Ok (successes before ++ successes after)%list, q)).
  { rewrite fetch_loop_attempts. unfold bind. rewrite T. unfold ret.
    now rewrite successes_app. }
  destruct (generateReport_writes (successes before ++ successes after)%list
              env q) as (paths & p2 & _ & L & G).
  exists after, q, paths, p2. cbv zeta.
  assert (Run : run env
                = report_written env
                    (document
                       (toLocaleDateString env (clock env (clock_reads q)))
                       (successes before ++ successes after)%list paths) p2).
  { unfold run. rewrite script_checks_credentials, C.
    unfold main, bind at 1 2, ask. rewrite Loop. exact G. }
  split; [|split; [|split; [|split; [|split; [|split; [|split]]]]]].
  - rewrite fetch_loop_attempts. unfold bind. now rewrite B.
  - rewrite fetch_step_attempt. unfold bind. rewrite A. unfold ret.
    cbn [successes]. now rewrite app_nil_r.
  - exact P.
  - exact (attempts_in_order _ _ _ _ _ P).
  - exact Loop.
  - exact Run.
  - exact L.
  - intros W. rewrite Run, (report_written_fulfilled _ _ _ W).
    eexists. repeat split.
Qed.

Lemma failed_fetch_is_contained_witness :
  let logged :=
    complained (failure_line Scenario.beta Scenario.not_found)
      (snd (fetch_repository Scenario.beta Scenario.beta_alpha
              (said (progress_line Scenario.beta) fresh))) in
  exists after q paths final,
    for_of [] fetch_step [] Scenario.beta_alpha fresh = (Ok [], fresh)
    /\ fetch_step Scenario.beta [] Scenario.beta_alpha fresh = (Ok [], logged)
    /\ attempts [Scenario.alpha] Scenario.beta_alpha logged = (Ok after, q)
    /\ map fst after = [Scenario.alpha]
    /\ for_of (config_repos Scenario.beta_alpha) fetch_step []
         Scenario.beta_alpha fresh
       = (Ok ([] ++ successes after)%list, q)
    /\ run Scenario.beta_alpha = (Ok tt, final)
    /\ report_md final
       = Some (document
                 (toLocaleDateString Scenario.beta_alpha
                    (clock Scenario.beta_alpha (clock_reads q)))
                 ([] ++ successes after)%list paths)
    /\ List.length paths = List.length ([] ++ successes after)%list
    /\ exit_status (fst (run Scenario.beta_alpha)) = 0%Z.
Proof.
  intros logged.
  destruct (failed_fetch_is_contained Scenario.beta_alpha
              [] Scenario.beta [Scenario.alpha] [] fresh
              (snd (fetch_repository Scenario.beta Scenario.beta_alpha
                      (said (progress_line Scenario.beta) fresh)))
              Scenario.not_found)
    as (after & q & paths & p2 & H1 & H2 & H3 & H4 & H5 & _ & H7 & W).
  - reflexivity.
  - reflexivity.
  - reflexivity.
  - vm_compute. reflexivity.
  - destruct W as (final & Run & File & Status); [reflexivity|].
    exists after, q, paths, final.
    split; [exact H1|]. split; [exact H2|]. split; [exact H3|].
    split; [exact H4|]. split; [exact H5|]. split; [exact Run|].
    split; [exact File|]. split; [exact H7 | exact Status].
Defined.

(** C2 as stated fails: with the report file write-protected, the failed
    fetch of beta is caught and logged as before, alpha's entry is the
    only one accumulated, and the rejected write of the report, which
    nothing catches, ends the process with exit status 1. *)
Lemma failed_fetch_and_write_rejected :
  credentials_missing Scenario.read_only = false
  /\ fst (fetch_repository Scenario.beta Scenario.read_only
            (said (progress_line Scenario.beta)
               (snd (attempts [Scenario.alpha] Scenario.read_only fresh))))
     = Throw Scenario.not_found
  /\ fst (for_of (config_repos Scenario.read_only) fetch_step []
            Scenario.read_only fresh) = Ok [Scenario.alpha_entry]
  /\ stderr (snd (run Scenario.read_only))
     = [failure_line Scenario.beta Scenario.not_found]
  /\ fst (run Scenario.read_only) = Throw Scenario.no_permission
  /\ exit_status (fst (run Scenario.read_only)) = 1%Z.
Proof. repeat split; vm_compute; reflexivity. Qed.

(** The run of that witness: beta fails first, alpha is still fetched and
    is the report's only section. *)
Example failure_first_then_success :
  fst (for_of (config_repos Scenario.beta_alpha) fetch_step []
         Scenario.beta_alpha fresh) = Ok [Scenario.alpha_entry]
  /\ report_md (snd (run Scenario.beta_alpha))
     = Some (document "7/11/2024" [Scenario.alpha_entry]
               [[["a.ts"; "b.md"]]])
  /\ stderr (snd (run Scenario.beta_alpha))
     = ["❌ Error obteniendo datos de beta: Request failed with status code 404"].
Proof. repeat split; vm_compute; reflexivity. Qed.

(** C6.  In a run that gets past the credentials check, every configured
    repository is attempted once, in configuration order, and the report
    the run hands to the write, and which a fulfilled write leaves in the
    file, is the header followed by exactly one section per repository
    whose fetch succeeded, in that order, each under that repository's
    heading; a repository whose fetch failed has no section. *)
Theorem one_section_per_fetched_repository (env : Ambient) :
  credentials_missing env = false ->
  exists tr p1 paths p2,
    let text :=
      header (toLocaleDateString env (clock env (clock_reads p1)))
      ++ glue (sections (successes tr) paths) in
    attempts (config_repos env) env fresh = (Ok tr, p1)
    /\ map fst tr = config_repos env
    /\ run env = report_written env text p2
    /\ (write_fulfilled env text ->
        exists final, run env = (Ok tt, final) /\ report_md final = Some text)
    /\ List.length (sections (successes tr) paths)
       = List.length (succeeded tr)
    /\ Forall2 (fun r text =>
                  begins_with (repository_heading (cfg_label r) (cfg_name r))
                              text)
               (succeeded tr) (sections (successes tr) paths).
Proof.
  intros C.
  destruct (main_runs env fresh) as (tr & p1 & paths & p2 & A & _ & L & _ & Mn).
  exists tr, p1, paths, p2. cbv zeta.
  pose proof (sections_follow_successes tr paths
                (attempts_labelled _ _ _ _ _ A) L) as S.
  assert (Run : run env
                = report_written env
                    (header (toLocaleDateString env
                               (clock env (clock_reads p1)))
                     ++ glue (sections (successes tr) paths)) p2).
  { unfold run. rewrite script_checks_credentials, C. exact Mn. }
  split; [exact A|]. split; [exact (attempts_in_order _ _ _ _ _ A)|].
  split; [exact Run|]. split; [|split].
  - intros W. rewrite Run, (report_written_fulfilled _ _ _ W).
    eexists. split; reflexivity.
  - symmetry. exact (Forall2_length S).
  - exact S.
Qed.

Lemma one_section_per_fetched_repository_witness :
  exists tr p1 paths final,
    attempts (config_repos Scenario.alpha_beta) Scenario.alpha_beta fresh
    = (Ok tr, p1)
    /\ map fst tr = config_repos Scenario.alpha_beta
    /\ run Scenario.alpha_beta = (Ok tt, final)
    /\ report_md final
       = Some (header (toLocaleDateString Scenario.alpha_beta
                         (clock Scenario.alpha_beta (clock_reads p1)))
               ++ glue (sections (successes tr) paths))
    /\ List.length (sections (successes tr) paths)
       = List.length (succeeded tr)
    /\ Forall2 (fun r text =>
                  begins_with (repository_heading (cfg_label r) (cfg_name r))
                              text)
               (succeeded tr) (sections (successes tr) paths).
Proof.
  destruct (one_section_per_fetched_repository Scenario.alpha_beta)
    as (tr & p1 & paths & p2 & A & O & _ & W & L & S); [reflexivity|].
  destruct W as (final & Run & File); [reflexivity|].
  exists tr, p1, paths, final.
  split; [exact A|]. split; [exact O|]. split; [exact Run|].
  split; [exact File|]. split; [exact L | exact S].
Defined.

(* ================================================================== *)
(** ** The filter of the Merged-PRs Collector *)

Lemma orphan_among (l : list PullRequest) :
  (exists pr, In pr l /\ truthy (merged_at pr) = true
              /\ nullish (user pr) = true) ->
  existsb orphan l = true.
Proof.
  intros (pr & I & T & N). apply existsb_exists. exists pr.
  split; [exact I|]. unfold orphan. now rewrite T, N.
Qed.

(** Without an orphan entry in the payload, the Collector returns the
    entries that are merged and authored by the configured account. *)
Lemma getMergedPRs_keeps (owner : option string) (repo : string)
    (env : Ambient) (p : Proc) (pulls : list PullRequest) :
  pulls_endpoint env (List.length (requests p))
    (pulls_url owner repo (clock env (clock_reads p))) = Fulfilled pulls ->
  forallb (fun pr => negb (orphan pr)) pulls = true ->
  getMergedPRs owner repo env p
  = (Ok (filter (fun pr => truthy (merged_at pr)
                           && authored_by (env_GITHUB_USER env) pr) pulls),
     sent (headers env (pulls_url owner repo (clock env (clock_reads p))))
          (tick p)).
Proof.
  intros E H. rewrite getMergedPRs_settles. cbv zeta. rewrite E.
  now apply Array_filter_keeps.
Qed.

(** C9.  The filter of the Merged-PRs Collector reads [user.login]
    without a guard: when the decoded list holds an entry with a merge
    timestamp and a [user] that is null or absent, the Collector throws a
    TypeError instead of leaving the entry out, and the loop of the
    orchestrator, catching it, adds nothing for that repository. *)
Theorem orphan_pull_request_discards_repository (env : Ambient)
    (r : RepoConfig) (allData : list RepositoryReport) (p p1 : Proc)
    (closed : list Issue) (pulls : list PullRequest) :
  getClosedIssues (env_GITHUB_USER env) (cfg_name r) env
    (said (progress_line r) p) = (Ok closed, p1) ->
  pulls_endpoint env (List.length (requests p1))
    (pulls_url (env_GITHUB_USER env) (cfg_name r) (clock env (clock_reads p1)))
  = Fulfilled pulls ->
  (exists pr, In pr pulls /\ truthy (merged_at pr) = true
              /\ nullish (user pr) = true) ->
  exists error p2,
    getMergedPRs (env_GITHUB_USER env) (cfg_name r) env p1 = (Throw error, p2)
    /\ name error = "TypeError"
    /\ fetch_step r allData env p
       = (Ok allData, complained (failure_line r error) p2).
Proof.
  intros I P O. apply orphan_among in O.
  pose proof (getMergedPRs_settles (env_GITHUB_USER env) (cfg_name r) env p1)
    as G.
  cbv zeta in G. rewrite P in G.
  destruct (Array_filter_throws (env_GITHUB_USER env) pulls env
              (sent (headers env
                       (pulls_url (env_GITHUB_USER env) (cfg_name r)
                          (clock env (clock_reads p1)))) (tick p1)) O)
    as (error & T & N).
  rewrite T in G. exists error. eexists. split; [exact G|]. split; [exact N|].
  unfold progress_line in I. unfold failure_line.
  unfold fetch_step, try_catch, console_log, console_error, ask, bind.
  rewrite I, G. reflexivity.
Qed.

Lemma orphan_pull_request_discards_repository_witness :
  exists error p2,
    getMergedPRs (Some "me") "alpha" Scenario.with_ghost
      (snd (getClosedIssues (Some "me") "alpha" Scenario.with_ghost
              (said (progress_line Scenario.alpha) fresh)))
    = (Throw error, p2)
    /\ name error = "TypeError"
    /\ fetch_step Scenario.alpha [] Scenario.with_ghost fresh
       = (Ok [], complained (failure_line Scenario.alpha error) p2).
Proof.
  apply (orphan_pull_request_discards_repository Scenario.with_ghost
           Scenario.alpha [] fresh
           (snd (getClosedIssues (Some "me") "alpha" Scenario.with_ghost
                   (said (progress_line Scenario.alpha) fresh)))
           [Scenario.bug] [Scenario.ghost; Scenario.mine]).
  - reflexivity.
  - reflexivity.
  - exists Scenario.ghost. split; [left; reflexivity|]. split; reflexivity.
Defined.

(** C3, at a payload the platform can send: a merged pull request of a
    deleted account, then one of the configured account.  The claim asks
    for the second entry alone; the Collector throws, and the run reports
    nothing for the repository. *)
Theorem ghost_pull_request_breaks_the_filter :
  let pulls := [Scenario.ghost; Scenario.mine] in
  pulls_endpoint Scenario.with_ghost 0
    "https://api.github.com/repos/me/alpha/pulls?state=closed&since=2024-11-07T00:00:00Z"
  = Fulfilled pulls
  /\ filter (fun pr => merged pr && authored_by (Some "me") pr) pulls
     = [Scenario.mine]
  /\ fst (getMergedPRs (Some "me") "alpha" Scenario.with_ghost fresh)
     = Throw (mkError "TypeError"
                "Cannot read properties of null (reading 'login')")
  /\ report_md (snd (run Scenario.with_ghost)) = Some (header "7/11/2024")
  /\ stderr (snd (run Scenario.with_ghost))
     = ["❌ Error obteniendo datos de alpha: Cannot read properties of null (reading 'login')"].
Proof. cbv zeta. repeat split. Qed.

(* ================================================================== *)
(** ** What the report depends on *)

Lemma getModifiedFiles_alike (owner : option string) (repo sha : string)
    (env1 : Ambient) (p1 : Proc) (env2 : Ambient) (p2 : Proc) :
  same_file_answers env1 p1 env2 p2 ->
  exists paths q1 q2,
    getModifiedFiles owner repo sha env1 p1 = (Ok paths, q1)
    /\ getModifiedFiles owner repo sha env2 p2 = (Ok paths, q2)
    /\ same_file_answers env1 q1 env2 q2.
Proof.
  intros [U H]. rewrite !getModifiedFiles_settles.
  pose proof (H 0 (commit_url owner repo sha)) as H0.
  rewrite !Nat.add_0_r in H0. rewrite H0.
  assert (Next : same_file_answers
                   env1 (sent (headers env1 (commit_url owner repo sha)) p1)
                   env2 (sent (headers env2 (commit_url owner repo sha)) p2)).
  { split; [exact U|]. intros k url. cbn [requests sent].
    rewrite !length_app. cbn [List.length].
    rewrite <- !Nat.add_assoc. apply H. }
  destruct (commit_endpoint env2 (List.length (requests p2))
              (commit_url owner repo sha)) as [detail|error].
  - do 3 eexists. split; [reflexivity|]. split; [reflexivity|]. exact Next.
  - do 3 eexists. split; [reflexivity|]. split; [reflexivity|]. exact Next.
Qed.

Lemma mapM_alike {A B} (f : A -> M B) (xs : list A) (env1 env2 : Ambient) :
  (forall x p1 p2,
      same_file_answers env1 p1 env2 p2 ->
      exists y q1 q2, f x env1 p1 = (Ok y, q1) /\ f x env2 p2 = (Ok y, q2)
                      /\ same_file_answers env1 q1 env2 q2) ->
  forall p1 p2,
    same_file_answers env1 p1 env2 p2 ->
    exists ys q1 q2, mapM f xs env1 p1 = (Ok ys, q1)
                     /\ mapM f xs env2 p2 = (Ok ys, q2)
                     /\ same_file_answers env1 q1 env2 q2.
Proof.
  intros Hf. induction xs as [|x xs IH]; intros p1 p2 S; cbn [mapM].
  - unfold ret. do 3 eexists.
    split; [reflexivity|]. split; [reflexivity | exact S].
  - unfold bind. destruct (Hf x p1 p2 S) as (y & q1 & q2 & -> & -> & S1).
    destruct (IH q1 q2 S1) as (ys & r1 & r2 & -> & -> & S2).
    unfold ret. do 3 eexists.
    split; [reflexivity|]. split; [reflexivity | exact S2].
Qed.

Lemma resolve_all_alike (allData : list RepositoryReport)
    (env1 : Ambient) (p1 : Proc) (env2 : Ambient) (p2 : Proc) :
  same_file_answers env1 p1 env2 p2 ->
  exists paths q1 q2,
    resolve_all allData env1 p1 = (Ok paths, q1)
    /\ resolve_all allData env2 p2 = (Ok paths, q2).
Proof.
  intros S.
  destruct (mapM_alike resolve_files allData env1 env2) with (p1 := p1)
    (p2 := p2) as (paths & q1 & q2 & E1 & E2 & _); [|exact S|eauto].
  intros data a1 a2 Sa. apply mapM_alike; [|exact Sa].
  intros commit b1 b2 Sb. unfold resolve_commit, bind, ask.
  rewrite <- (proj1 Sb). now apply getModifiedFiles_alike.
Qed.

(** C1, as the script has it.  The Report Generator reads the clock for
    the date line and asks the platform for every commit's file list
    while it assembles the report.  Two invocations on the same input,
    under the same configured account, for which the host formats the
    date read alike and the commit-detail endpoint answers alike, produce
    byte-identical text: the document over the input in its order, that
    date and those file lists, handed as it is to the write of the file;
    when both writes are fulfilled the two files hold that text. *)
Theorem report_is_determined_by_input_date_and_files
    (allData : list RepositoryReport) (env1 : Ambient) (p1 : Proc)
    (env2 : Ambient) (p2 : Proc) :
  env_GITHUB_USER env1 = env_GITHUB_USER env2 ->
  toLocaleDateString env1 (clock env1 (clock_reads p1))
  = toLocaleDateString env2 (clock env2 (clock_reads p2)) ->
  (forall k url,
      commit_endpoint env1 (List.length (requests p1) + k) url
      = commit_endpoint env2 (List.length (requests p2) + k) url) ->
  exists paths q1 q2,
    let text :=
      document (toLocaleDateString env1 (clock env1 (clock_reads p1)))
               allData paths in
    Forall2 (fun data files_of =>
               List.length files_of = List.length (commits data))
            allData paths
    /\ generateReport allData env1 p1 = report_written env1 text q1
    /\ generateReport allData env2 p2 = report_written env2 text q2
    /\ (write_fulfilled env1 text -> write_fulfilled env2 text ->
        report_md (snd (generateReport allData env1 p1))
        = report_md (snd (generateReport allData env2 p2))
        /\ report_md (snd (generateReport allData env1 p1)) = Some text).
Proof.
  intros U D H.
  destruct (resolve_all_alike allData env1 (tick p1) env2 (tick p2))
    as (paths & q1 & q2 & R1 & R2); [split; [exact U | exact H]|].
  destruct (generateReport_writes allData env1 p1)
    as (paths1 & r1 & E1 & L1 & G1).
  destruct (generateReport_writes allData env2 p2)
    as (paths2 & r2 & E2 & L2 & G2).
  rewrite R1 in E1. rewrite R2 in E2.
  injection E1 as <- <-. injection E2 as <- <-.
  rewrite <- D in G2.
  exists paths, q1, q2. cbv zeta.
  split; [exact (resolve_all_shape _ _ _ _ _ R1)|].
  split; [exact G1|]. split; [exact G2|].
  intros W1 W2.
  rewrite G1, G2, (report_written_fulfilled _ _ _ W1),
    (report_written_fulfilled _ _ _ W2).
  split; reflexivity.
Qed.

Lemma report_is_determined_by_input_date_and_files_witness :
  report_md (snd (generateReport [Scenario.alpha_entry] Scenario.alpha_beta
                    fresh))
  = report_md (snd (generateReport [Scenario.alpha_entry]
                      Scenario.other_token
                      (snd (attempts [Scenario.beta] Scenario.other_token
                              fresh))))
  /\ exists paths,
       Forall2 (fun data files_of =>
                  List.length files_of = List.length (commits data))
               [Scenario.alpha_entry] paths
       /\ report_md (snd (generateReport [Scenario.alpha_entry]
                            Scenario.alpha_beta fresh))
          = Some (document "7/11/2024" [Scenario.alpha_entry] paths).
Proof.
  destruct (report_is_determined_by_input_date_and_files
              [Scenario.alpha_entry] Scenario.alpha_beta fresh
              Scenario.other_token
              (snd (attempts [Scenario.beta] Scenario.other_token fresh)))
    as (paths & q1 & q2 & Shape & _ & _ & W).
  - reflexivity.
  - reflexivity.
  - intros k url. reflexivity.
  - destruct W as (Same & File); [reflexivity | reflexivity |].
    split; [exact Same|]. exists paths. split; [exact Shape | exact File].
Defined.

(** C1 as stated fails: on one and the same input the generator writes
    one text when the commit-detail endpoint answers and another when it
    does not, and yet another on a host of another locale; it has issued
    a request and read the clock while formatting. *)
Lemma report_depends_on_the_network :
  report_md (snd (generateReport [Scenario.alpha_entry] Scenario.alpha_beta
                    fresh))
  <> report_md (snd (generateReport [Scenario.alpha_entry]
                       Scenario.detail_down fresh))
  /\ report_md (snd (generateReport [Scenario.alpha_entry]
                       Scenario.alpha_beta fresh))
     <> report_md (snd (generateReport [Scenario.alpha_entry]
                          Scenario.other_locale fresh))
  /\ map req_url
       (requests (snd (generateReport [Scenario.alpha_entry]
                         Scenario.alpha_beta fresh)))
     = ["https://api.github.com/repos/me/alpha/commits/abc"]
  /\ clock_reads (snd (generateReport [Scenario.alpha_entry]
                         Scenario.alpha_beta fresh)) = 1.
Proof.
  split; [|split; [|split; reflexivity]]; vm_compute; discriminate.
Qed.

(* ================================================================== *)
(** ** The end-to-end scenario of the specification

    Repositories alpha and beta are configured; alpha answers with one
    issue, three closed pull requests of which one is merged by the
    account, and one commit touching two files; beta is a 404. *)

Example end_to_end_report :
  report_md (snd (run Scenario.alpha_beta))
  = Some "# Reporte Semanal de Actividades

Fecha: 7/11/2024

## 🏗️ Repositorio: Alpha (alpha)

### 🛠️ Issues Resueltos - Alpha

- [Bug](https://github.com/me/alpha/issues/1)

### 🔄 Pull Requests Mergiados - Alpha

- [Mine](https://github.com/me/alpha/pull/2)

### 💾 Commits del día - Alpha

#### Commit: `fix`
- [Ver commit](https://github.com/me/alpha/commit/abc)
- Archivos modificados:
  - a.ts
  - b.md

---
".
Proof. vm_compute. reflexivity. Qed.

Example end_to_end_console :
  fst (run Scenario.alpha_beta) = Ok tt
  /\ stdout (snd (run Scenario.alpha_beta))
     = ["🔄 Obteniendo datos de alpha..."; "🔄 Obteniendo datos de beta...";
        "✅ Reporte generado en: /srv/reportes/report.md"]
  /\ stderr (snd (run Scenario.alpha_beta))
     = ["❌ Error obteniendo datos de beta: Request failed with status code 404"].
Proof. repeat split. Qed.

(* ================================================================== *)
(** ** Footprints of the script's functions *)

Lemma effects_refl (env : Ambient) (p : Proc) : effects env p p 0 [] [] [].
Proof.
  unfold effects. cbn [map]. now rewrite Nat.add_0_r, !app_nil_r.
Qed.

Lemma effects_trans (env : Ambient) (p p1 p2 : Proc) (n1 n2 : nat)
    (u1 u2 o1 o2 e1 e2 : list string) :
  effects env p p1 n1 u1 o1 e1 ->
  effects env p1 p2 n2 u2 o2 e2 ->
  effects env p p2 (n1 + n2) (u1 ++ u2) (o1 ++ o2) (e1 ++ e2).
Proof.
  intros (C1 & R1 & O1 & E1 & F1) (C2 & R2 & O2 & E2 & F2).
  unfold effects. rewrite C2, C1, R2, R1, O2, O1, E2, E1, F2, F1.
  now rewrite map_app, !app_assoc, Nat.add_assoc.
Qed.

Lemma effects_request (env : Ambient) (url : string) (p : Proc) :
  effects env p (sent (headers env url) (tick p)) 1 [url] [] [].
Proof.
  unfold effects. cbn [clock_reads requests stdout stderr report_md sent tick map].
  now rewrite Nat.add_1_r, !app_nil_r.
Qed.

Lemma Forall_firstn {A} (P : A -> Prop) (n : nat) (l : list A) :
  Forall P l -> Forall P (firstn n l).
Proof.
  intros H. rewrite <- (firstn_skipn n l) in H.
  exact (proj1 (proj1 (Forall_app _ _ _) H)).
Qed.

(** The File-Diff Fetcher: one request, at most one line of complaint. *)
Lemma getModifiedFiles_effects (owner : option string) (repo sha : string)
    (env : Ambient) (p : Proc) (paths : list string) (p' : Proc) :
  getModifiedFiles owner repo sha env p = (Ok paths, p') ->
  exists err,
    effects env p p' 0 [commit_url owner repo sha] [] err
    /\ Forall (begins_with file_error_prefix) err
    /\ List.length err <= 1.
Proof.
  rewrite getModifiedFiles_settles.
  destruct (commit_endpoint env _ _) as [detail|error]; intros [= _ <-].
  - exists []. split; [|split; [constructor | cbn; lia]].
    unfold effects. cbn [clock_reads requests stdout stderr report_md sent map].
    now rewrite Nat.add_0_r, !app_nil_r.
  - eexists [_]. split; [|split; [|cbn; lia]].
    + unfold effects.
      cbn [clock_reads requests stdout stderr report_md sent complained map].
      rewrite Nat.add_0_r, !app_nil_r. repeat split.
    + constructor; [|constructor]. unfold begins_with, file_error_prefix.
      eexists. reflexivity.
Qed.

Lemma resolve_files_effects (data : RepositoryReport) (env : Ambient)
    (p : Proc) (paths : list (list string)) (p' : Proc) :
  resolve_files data env p = (Ok paths, p') ->
  exists err,
    effects env p p' 0
      (map (fun commit =>
              commit_url (env_GITHUB_USER env) (repo data) (sha commit))
           (commits data)) [] err
    /\ Forall (begins_with file_error_prefix) err
    /\ List.length err <= List.length (commits data).
Proof.
  unfold resolve_files. revert p paths p'.
  induction (commits data) as [|commit l IH]; intros p paths p'; cbn [mapM].
  - unfold ret. intros [= _ <-]. exists []. split; [apply effects_refl|].
    split; [constructor | cbn; lia].
  - unfold bind at 1. unfold resolve_commit at 1. unfold bind at 1, ask.
    destruct (getModifiedFiles _ _ _ env p) as [[files_of|e|c] p1] eqn:G;
      try discriminate.
    unfold bind.
    destruct (mapM (resolve_commit data) l env p1) as [[rest|e|c] p2] eqn:E;
      try discriminate.
    unfold ret. intros [= _ <-].
    destruct (getModifiedFiles_effects _ _ _ _ _ _ _ G) as (e1 & F1 & B1 & L1).
    destruct (IH _ _ _ E) as (e2 & F2 & B2 & L2).
    exists (e1 ++ e2)%list. split; [|split].
    + exact (effects_trans _ _ _ _ _ _ _ _ _ _ _ _ F1 F2).
    + apply Forall_app. now split.
    + rewrite length_app. cbn [List.length]. lia.
Qed.

Lemma resolve_all_effects (allData : list RepositoryReport) (env : Ambient)
    (p : Proc) (paths : list (list (list string))) (p' : Proc) :
  resolve_all allData env p = (Ok paths, p') ->
  exists err,
    effects env p p' 0 (commit_urls env allData) [] err
    /\ Forall (begins_with file_error_prefix) err
    /\ List.length err <= List.length (commit_urls env allData).
Proof.
  unfold resolve_all. revert p paths p'.
  induction allData as [|data l IH]; intros p paths p'; cbn [mapM].
  - unfold ret. intros [= _ <-]. exists []. split; [apply effects_refl|].
    split; [constructor | cbn; lia].
  - unfold bind.
    destruct (resolve_files data env p) as [[files_of|e|c] p1] eqn:G;
      try discriminate.
    destruct (mapM resolve_files l env p1) as [[rest|e|c] p2] eqn:E;
      try discriminate.
    unfold ret. intros [= _ <-].
    destruct (resolve_files_effects _ _ _ _ _ G) as (e1 & F1 & B1 & L1).
    destruct (IH _ _ _ E) as (e2 & F2 & B2 & L2).
    exists (e1 ++ e2)%list. split; [|split].
    + exact (effects_trans _ _ _ _ _ _ _ _ _ _ _ _ F1 F2).
    + apply Forall_app. now split.
    + unfold commit_urls in *. cbn [flat_map].
      rewrite !length_app, length_map. lia.
Qed.

(** The fetch of a repository: [n] Collectors ran, each with one reading
    of the clock and one request, and [n] is 3 unless one of them threw. *)
Lemma fetch_repository_effects (r : RepoConfig) (env : Ambient) (p : Proc) :
  exists n,
    1 <= n <= 3
    /\ effects env p (snd (fetch_repository r env p)) n
         (firstn n (fetch_urls env (cfg_name r) (clock_reads p))) [] []
    /\ (n < 3 -> exists error, fst (fetch_repository r env p) = Throw error)
    /\ (forall error,
           issues_endpoint env (List.length (requests p))
             (issues_url env (env_GITHUB_USER env) (cfg_name r)
                (clock env (clock_reads p))) = Rejected error ->
           n = 1 /\ fst (fetch_repository r env p) = Throw error).
Proof.
  unfold fetch_repository, ask, bind.
  rewrite getClosedIssues_settles. cbv zeta.
  set (u1 := issues_url env (env_GITHUB_USER env) (cfg_name r)
               (clock env (clock_reads p))).
  pose proof (effects_request env u1 p) as F1.
  set (p1 := sent (headers env u1) (tick p)) in *.
  destruct (issues_endpoint env _ u1) as [closed|error1]; cbv beta iota.
  2:{ exists 1. split; [lia|]. split; [|split].
      - cbn [snd firstn fetch_urls]. exact F1.
      - intros _. eexists. reflexivity.
      - intros error [= <-]. split; reflexivity. }
  rewrite getMergedPRs_settles. cbv zeta.
  assert (K1 : clock_reads p1 = S (clock_reads p)) by reflexivity.
  rewrite K1.
  set (u2 := pulls_url (env_GITHUB_USER env) (cfg_name r)
               (clock env (S (clock_reads p)))).
  pose proof (effects_request env u2 p1) as F2.
  set (p2 := sent (headers env u2) (tick p1)) in *.
  pose proof (effects_trans _ _ _ _ _ _ _ _ _ _ _ _ F1 F2) as F12.
  cbn [Nat.add Datatypes.app] in F12.
  destruct (pulls_endpoint env _ u2) as [pulls|error2]; cbv beta iota.
  2:{ exists 2. split; [lia|]. split; [|split].
      - cbn [snd firstn fetch_urls]. exact F12.
      - intros _. eexists. reflexivity.
      - intros error E. discriminate E. }
  destruct (Array_filter_never_exits (env_GITHUB_USER env) pulls env p2)
    as (o & -> & Ho).
  destruct o as [kept|error2|code]; [| |now destruct (Ho code)];
    cbv beta iota.
  2:{ exists 2. split; [lia|]. split; [|split].
      - cbn [snd firstn fetch_urls]. exact F12.
      - intros _. eexists. reflexivity.
      - intros error E. discriminate E. }
  rewrite getTodaysCommits_settles. cbv zeta.
  assert (K2 : clock_reads p2 = S (S (clock_reads p))) by reflexivity.
  rewrite K2.
  set (u3 := commits_url env (env_GITHUB_USER env) (cfg_name r)
               (clock env (S (S (clock_reads p))))).
  pose proof (effects_request env u3 p2) as F3.
  pose proof (effects_trans _ _ _ _ _ _ _ _ _ _ _ _ F12 F3) as F123.
  cbn [Nat.add Datatypes.app] in F123.
  exists 3. split; [lia|].
  destruct (commits_endpoint env _ u3) as [entries|error3]; cbv beta iota.
  - split; [|split].
    + cbn [snd firstn fetch_urls ret]. exact F123.
    + intros H. lia.
    + intros error E. discriminate E.
  - split; [|split].
    + cbn [snd firstn fetch_urls]. exact F123.
    + intros H. lia.
    + intros error E. discriminate E.
Qed.

Lemma root_of_fetch_urls (env : Ambient) (name : string) (k : nat) :
  Forall (begins_with (account_root env)) (fetch_urls env name k).
Proof.
  unfold fetch_urls, account_root, begins_with, issues_url, pulls_url,
    commits_url.
  constructor.
  { exists (name ++ "/issues?state=closed&creator="
            ++ template (env_GITHUB_USER env) ++ "&since="
            ++ window_start (clock env k)). text. }
  constructor.
  { exists (name ++ "/pulls?state=closed&since="
            ++ window_start (clock env (S k))). text. }
  constructor; [|constructor].
  exists (name ++ "/commits?author=" ++ template (env_GITHUB_USER env)
          ++ "&since=" ++ window_start (clock env (S (S k)))). text.
Qed.

Lemma root_of_commit_urls (env : Ambient) (allData : list RepositoryReport) :
  Forall (begins_with (account_root env)) (commit_urls env allData).
Proof.
  unfold commit_urls. apply Forall_flat_map. apply Forall_forall.
  intros data _. apply Forall_map. apply Forall_forall. intros commit _.
  unfold account_root, begins_with, commit_url.
  exists (repo data ++ "/commits/" ++ sha commit). text.
Qed.

(** One turn of the loop. *)
Lemma attempt_effects (r : RepoConfig) (env : Ambient) (p : Proc)
    (a : Attempt) (p' : Proc) :
  attempt r env p = (Ok a, p') ->
  exists urls,
    effects env p p' (List.length urls) urls [progress_line r]
            (failure_lines [a])
    /\ List.length urls <= 3
    /\ Forall (begins_with (account_root env)) urls.
Proof.
  unfold attempt, bind at 1, console_log, try_catch, bind.
  destruct (fetch_repository_effects r env (said (progress_line r) p))
    as (n & N & F & _).
  assert (S0 : effects env p (said (progress_line r) p) 0 []
                 [progress_line r] []).
  { unfold effects. cbn [clock_reads requests stdout stderr report_md said map].
    now rewrite Nat.add_0_r, !app_nil_r. }
  pose proof (effects_trans _ _ _ _ _ _ _ _ _ _ _ _ S0 F) as F'.
  cbn [Nat.add Datatypes.app] in F'.
  assert (Ln : List.length
                 (firstn n (fetch_urls env (cfg_name r)
                              (clock_reads (said (progress_line r) p)))) = n).
  { rewrite length_firstn. cbn [fetch_urls List.length]. lia. }
  destruct (fetch_repository r env _) as [[data|e|c] q]; cbn [snd] in F'.
  - unfold ret. intros [= <- <-]. eexists. split; [|split].
    + rewrite Ln. exact F'.
    + lia.
    + apply Forall_firstn, root_of_fetch_urls.
  - unfold console_error, ret. intros [= <- <-]. eexists. split; [|split].
    + rewrite Ln. cbn [failure_lines].
      pose proof (effects_trans env p q (complained (failure_line r e) q)
                    n 0 _ [] _ [] _ [failure_line r e] F') as G.
      rewrite Nat.add_0_r, !app_nil_r in G. apply G.
      unfold effects.
      cbn [clock_reads requests stdout stderr report_md complained map].
      now rewrite Nat.add_0_r, !app_nil_r.
    + lia.
    + apply Forall_firstn, root_of_fetch_urls.
  - discriminate.
Qed.

Lemma failure_lines_app (xs ys : list Attempt) :
  failure_lines (xs ++ ys) = (failure_lines xs ++ failure_lines ys)%list.
Proof.
  induction xs as [|[r [e|d]] xs IH]; simpl; congruence.
Qed.

(** The whole loop. *)
Lemma attempts_effects (repos : list RepoConfig) (env : Ambient) (p : Proc)
    (tr : list Attempt) (p' : Proc) :
  attempts repos env p = (Ok tr, p') ->
  exists urls,
    effects env p p' (List.length urls) urls (map progress_line repos)
            (failure_lines tr)
    /\ List.length urls <= 3 * List.length repos
    /\ Forall (begins_with (account_root env)) urls.
Proof.
  unfold attempts. revert p tr p'.
  induction repos as [|r repos IH]; intros p tr p'; cbn [mapM].
  - unfold ret. intros [= <- <-]. exists []. split; [apply effects_refl|].
    split; [cbn; lia | constructor].
  - unfold bind.
    destruct (attempt r env p) as [[a|e|c] p1] eqn:A; try discriminate.
    destruct (mapM attempt repos env p1) as [[rest|e|c] p2] eqn:E;
      try discriminate.
    unfold ret. intros [= <- <-].
    destruct (attempt_effects _ _ _ _ _ A) as (u1 & F1 & L1 & R1).
    destruct (IH _ _ _ E) as (u2 & F2 & L2 & R2).
    exists (u1 ++ u2)%list. split; [|split].
    + change (a :: rest) with ([a] ++ rest)%list.
      rewrite failure_lines_app, length_app.
      exact (effects_trans _ _ _ _ _ _ _ _ _ _ _ _ F1 F2).
    + rewrite length_app. cbn [List.length]. lia.
    + apply Forall_app. now split.
Qed.

Lemma headers_well_formed (env : Ambient) (urls : list string) :
  Forall (begins_with (account_root env)) urls ->
  Forall (well_formed_request env) (map (headers env) urls).
Proof.
  intros H. apply Forall_map. revert H. apply Forall_impl.
  intros url B. unfold well_formed_request, headers. cbn. auto.
Qed.

Lemma length_commit_urls (env : Ambient) (allData : list RepositoryReport) :
  List.length (commit_urls env allData)
  = List.length (flat_map commits allData).
Proof.
  unfold commit_urls. induction allData as [|data l IH]; cbn [flat_map].
  - reflexivity.
  - now rewrite !length_app, length_map, IH.
Qed.

Lemma successes_length (tr : list Attempt) :
  List.length (successes tr) <= List.length tr.
Proof.
  induction tr as [|[r [e|d]] tr IH]; cbn [successes List.length]; lia.
Qed.

Lemma attempts_length (repos : list RepoConfig) (env : Ambient) (p p' : Proc)
    (tr : list Attempt) :
  attempts repos env p = (Ok tr, p') -> List.length tr = List.length repos.
Proof.
  intros A. rewrite <- (attempts_in_order _ _ _ _ _ A). now rewrite length_map.
Qed.

(** A run past the credentials check, by its two phases. *)
Lemma run_effects (env : Ambient) :
  credentials_missing env = false ->
  exists tr p1 paths p2 urls err,
    attempts (config_repos env) env fresh = (Ok tr, p1)
    /\ effects env fresh p1 (List.length urls) urls
         (map progress_line (config_repos env)) (failure_lines tr)
    /\ List.length urls <= 3 * List.length (config_repos env)
    /\ Forall (begins_with (account_root env)) urls
    /\ effects env (tick p1) p2 0 (commit_urls env (successes tr)) [] err
    /\ Forall (begins_with file_error_prefix) err
    /\ List.length err <= List.length (commit_urls env (successes tr))
    /\ run env
       = report_written env
           (document (toLocaleDateString env (clock env (clock_reads p1)))
                     (successes tr) paths) p2.
Proof.
  intros C.
  destruct (main_runs env fresh) as (tr & p1 & paths & p2 & A & R & _ & _ & Mn).
  destruct (attempts_effects _ _ _ _ _ A) as (urls & F & L & B).
  destruct (resolve_all_effects _ _ _ _ _ R) as (err & G & Be & Le).
  exists tr, p1, paths, p2, urls, err.
  split; [exact A|]. split; [exact F|]. split; [exact L|]. split; [exact B|].
  split; [exact G|]. split; [exact Be|]. split; [exact Le|].
  unfold run. now rewrite script_checks_credentials, C.
Qed.

(* ================================================================== *)
(** ** Further properties of the script *)

(** X1.  Every request a run sends goes to the REST root of the
    configured account, https://api.github.com/repos/<GITHUB_USER>/, and
    carries the Authorization header built from GITHUB_TOKEN and the
    pinned Accept header: the owner of every repository asked about is
    the account itself. *)
Theorem every_request_is_well_formed (env : Ambient) :
  Forall (well_formed_request env) (requests (snd (run env))).
Proof.
  destruct (credentials_missing env) eqn:C.
  - unfold run. rewrite script_checks_credentials, C. constructor.
  - destruct (run_effects env C)
      as (tr & p1 & paths & p2 & urls & err & _ & F & _ & B & G & _ & _ & ->).
    rewrite (proj1 (proj2 (report_written_frame _ _ _))).
    destruct F as (_ & R1 & _). destruct G as (_ & R2 & _).
    rewrite R2. cbn [requests tick]. rewrite R1. cbn [requests fresh Datatypes.app].
    apply Forall_app. split; apply headers_well_formed.
    + exact B.
    + apply root_of_commit_urls.
Qed.

(** X2.  The fetch of a repository calls the three Collectors in the
    order issues, pull requests, commits, each with one reading of the
    clock and one request, and stops at the first that throws: fewer than
    three requests are sent only when the fetch throws, and when the
    issues request is rejected it is the only one sent. *)
Theorem fetch_stops_at_the_first_failure (r : RepoConfig) (env : Ambient)
    (p : Proc) :
  exists n,
    1 <= n <= 3
    /\ requests (snd (fetch_repository r env p))
       = (requests p
          ++ map (headers env)
               (firstn n (fetch_urls env (cfg_name r) (clock_reads p))))%list
    /\ clock_reads (snd (fetch_repository r env p)) = clock_reads p + n
    /\ (n < 3 -> exists error, fst (fetch_repository r env p) = Throw error)
    /\ (forall error,
           issues_endpoint env (List.length (requests p))
             (issues_url env (env_GITHUB_USER env) (cfg_name r)
                (clock env (clock_reads p))) = Rejected error ->
           n = 1 /\ fst (fetch_repository r env p) = Throw error).
Proof.
  destruct (fetch_repository_effects r env p) as (n & N & F & T & I).
  exists n. split; [exact N|]. destruct F as (C & R & _).
  split; [exact R|]. split; [exact C|]. split; [exact T | exact I].
Qed.

Lemma fetch_stops_at_the_first_failure_witness :
  exists n,
    1 <= n <= 3
    /\ requests (snd (fetch_repository Scenario.beta Scenario.alpha_beta fresh))
       = ([] ++ map (headers Scenario.alpha_beta)
                  (firstn n (fetch_urls Scenario.alpha_beta "beta" 0)))%list
    /\ clock_reads (snd (fetch_repository Scenario.beta Scenario.alpha_beta
                           fresh)) = 0 + n
    /\ (n < 3 ->
        exists error,
          fst (fetch_repository Scenario.beta Scenario.alpha_beta fresh)
          = Throw error)
    /\ n = 1
    /\ fst (fetch_repository Scenario.beta Scenario.alpha_beta fresh)
       = Throw Scenario.not_found.
Proof.
  destruct (fetch_stops_at_the_first_failure Scenario.beta Scenario.alpha_beta
              fresh) as (n & N & R & C & T & I).
  exists n. split; [exact N|]. split; [exact R|]. split; [exact C|].
  split; [exact T|]. apply (I Scenario.not_found). reflexivity.
Defined.

Lemma no_orphan (l : list PullRequest) :
  existsb orphan l = false -> forallb (fun pr => negb (orphan pr)) l = true.
Proof.
  induction l as [|pr l IH]; cbn [existsb forallb]; [reflexivity|].
  intros E. apply orb_false_iff in E as [-> E]. cbn. exact (IH E).
Qed.

(** X3.  Given the decoded list of closed pull requests, the Merged-PRs
    Collector returns normally exactly when no entry has both a merge
    timestamp and a missing author object (an unmerged entry is never
    asked for its author); what it then returns are the entries that are
    merged and authored by the account, in the order received, each of
    them such an entry. *)
Theorem getMergedPRs_returns_iff_no_orphan (owner : option string)
    (repo : string) (env : Ambient) (p : Proc) (pulls : list PullRequest) :
  pulls_endpoint env (List.length (requests p))
    (pulls_url owner repo (clock env (clock_reads p))) = Fulfilled pulls ->
  ((exists kept, fst (getMergedPRs owner repo env p) = Ok kept)
   <-> existsb orphan pulls = false)
  /\ forall kept,
       fst (getMergedPRs owner repo env p) = Ok kept ->
       kept = filter (fun pr => truthy (merged_at pr)
                                && authored_by (env_GITHUB_USER env) pr) pulls
       /\ Forall (fun pr =>
                    truthy (merged_at pr) = true
                    /\ exists u, user pr = Present u
                                 /\ env_GITHUB_USER env = Some (login u))
                 kept
       /\ List.length kept <= List.length pulls.
Proof.
  intros E.
  assert (K : existsb orphan pulls = false ->
              fst (getMergedPRs owner repo env p)
              = Ok (filter (fun pr => truthy (merged_at pr)
                                      && authored_by (env_GITHUB_USER env) pr)
                           pulls)).
  { intros N. now rewrite (getMergedPRs_keeps _ _ _ _ _ E (no_orphan _ N)). }
  assert (T : existsb orphan pulls = true ->
              exists error, fst (getMergedPRs owner repo env p) = Throw error).
  { intros O. rewrite getMergedPRs_settles. cbv zeta. rewrite E.
    destruct (Array_filter_throws (env_GITHUB_USER env) pulls env
                (sent (headers env
                         (pulls_url owner repo (clock env (clock_reads p))))
                      (tick p)) O) as (error & -> & _).
    now exists error. }
  split; [split|].
  - intros [kept H]. destruct (existsb orphan pulls) eqn:O; [|reflexivity].
    destruct (T eq_refl) as [error H']. congruence.
  - intros N. eexists. exact (K N).
  - intros kept H.
    destruct (existsb orphan pulls) eqn:O.
    { destruct (T eq_refl) as [error H']. congruence. }
    rewrite (K eq_refl) in H. injection H as <-.
    split; [reflexivity|]. split; [|apply filter_length_le].
    apply Forall_forall. intros pr I. apply filter_In in I as [_ I].
    apply andb_true_iff in I as [M A]. split; [exact M|].
    unfold authored_by, strict_eq in A.
    destruct (user pr) as [| |u]; try discriminate.
    destruct (env_GITHUB_USER env) as [account|]; try discriminate.
    apply String.eqb_eq in A. exists u. split; congruence.
Qed.

Lemma getMergedPRs_returns_iff_no_orphan_witness :
  ((exists kept,
       fst (getMergedPRs (Some "me") "alpha" Scenario.alpha_beta fresh)
       = Ok kept)
   <-> existsb orphan [Scenario.mine; Scenario.unmerged; Scenario.theirs]
       = false)
  /\ forall kept,
       fst (getMergedPRs (Some "me") "alpha" Scenario.alpha_beta fresh)
       = Ok kept ->
       kept = filter (fun pr => truthy (merged_at pr)
                                && authored_by (Some "me") pr)
                     [Scenario.mine; Scenario.unmerged; Scenario.theirs]
       /\ Forall (fun pr =>
                    truthy (merged_at pr) = true
                    /\ exists u, user pr = Present u
                                 /\ Some "me" = Some (login u))
                 kept
       /\ List.length kept <= 3.
Proof.
  apply (getMergedPRs_returns_iff_no_orphan (Some "me") "alpha"
           Scenario.alpha_beta fresh
           [Scenario.mine; Scenario.unmerged; Scenario.theirs]).
  reflexivity.
Defined.



(** X5.  For every commit the report has the message as a sub-heading and
    the link to the commit, then the paths of the commit-detail payload
    as one bullet each, in order, when the payload lists at least one
    file, and the fixed no-files line in every other case (an empty file
    list, no file list, a failed request, which the report does not tell
    apart), then the separator. *)
Theorem commit_step_lists_files_or_says_none (data : RepositoryReport)
    (commit : Commit) (content : string) (env : Ambient) (p : Proc) :
  let answer :=
    commit_endpoint env (List.length (requests p))
      (commit_url (env_GITHUB_USER env) (repo data) (sha commit)) in
  let opening :=
    LF ++ "#### Commit: `" ++ commit_message commit ++ "`" ++ LF
    ++ "- [Ver commit](" ++ html_url commit ++ ")" ++ LF in
  let closing := LF ++ "---" ++ LF in
  (forall entry entries,
      answer = Fulfilled (mkCommitDetail (Present (entry :: entries))) ->
      fst (commit_step data commit content env p)
      = Ok (content ++ opening ++ "- Archivos modificados:" ++ LF
            ++ glue (map (fun e => "  - " ++ filename e ++ LF)
                         (entry :: entries))
            ++ closing))
  /\ (answer = Fulfilled (mkCommitDetail (Present []))
      \/ (exists detail,
             answer = Fulfilled detail /\ nullish (files detail) = true)
      \/ (exists error, answer = Rejected error) ->
      fst (commit_step data commit content env p)
      = Ok (content ++ opening
            ++ "- No se encontraron archivos modificados." ++ LF ++ closing)).
Proof.
  cbv zeta. rewrite commit_step_appends. unfold bind.
  rewrite getModifiedFiles_settles. split.
  - intros entry entries ->. unfold ret, commit_block, filenames_or_empty.
    cbn [fst files map file_lines]. do 2 f_equal. rewrite map_map. text.
  - assert (N : fst (ret (content ++ commit_block commit []) env p)
                = Ok (content
                      ++ (LF ++ "#### Commit: `" ++ commit_message commit
                          ++ "`" ++ LF ++ "- [Ver commit]("
                          ++ html_url commit ++ ")" ++ LF)
                      ++ "- No se encontraron archivos modificados." ++ LF
                      ++ LF ++ "---" ++ LF)).
    { unfold ret, commit_block. cbn [fst file_lines]. do 2 f_equal. text. }
    intros [-> | [(detail & -> & Nl) | (error & ->)]].
    + exact N.
    + unfold filenames_or_empty. destruct (files detail); try discriminate;
        exact N.
    + exact N.
Qed.

Lemma commit_step_lists_files_or_says_none_witness :
  fst (commit_step Scenario.alpha_entry Scenario.fix_commit ""
         Scenario.alpha_beta fresh)
  = Ok ("" ++ (LF ++ "#### Commit: `fix`" ++ LF
               ++ "- [Ver commit](https://github.com/me/alpha/commit/abc)"
               ++ LF)
        ++ "- Archivos modificados:" ++ LF
        ++ glue ["  - a.ts" ++ LF; "  - b.md" ++ LF] ++ LF ++ "---" ++ LF)
  /\ fst (commit_step Scenario.alpha_entry Scenario.fix_commit ""
            Scenario.detail_down fresh)
     = Ok ("" ++ (LF ++ "#### Commit: `fix`" ++ LF
                  ++ "- [Ver commit](https://github.com/me/alpha/commit/abc)"
                  ++ LF)
           ++ "- No se encontraron archivos modificados." ++ LF
           ++ LF ++ "---" ++ LF).
Proof.
  split.
  - apply (proj1 (commit_step_lists_files_or_says_none Scenario.alpha_entry
                    Scenario.fix_commit "" Scenario.alpha_beta fresh)
             (mkFileDiff "a.ts") [mkFileDiff "b.md"]).
    reflexivity.
  - apply (proj2 (commit_step_lists_files_or_says_none Scenario.alpha_entry
                    Scenario.fix_commit "" Scenario.detail_down fresh)).
    right. right. exists Scenario.not_found. reflexivity.
Defined.





(** The error stream of that run: the failed fetch of beta, then the
    failed file list of alpha's commit. *)
Example two_kinds_of_complaint :
  stderr (snd (run Scenario.detail_down))
  = ["❌ Error obteniendo datos de beta: Request failed with status code 404";
     "❌ Error obteniendo archivos del commit abc: AxiosError: Request failed with status code 404"].
Proof. vm_compute. reflexivity. Qed.

(** X8.  A run past the credentials check never asks twice: it sends at
    most three list requests per configured repository, with one reading
    of the clock each, then reads the clock once more for the date line
    and sends exactly one commit-detail request per commit of the
    report. *)
Theorem run_request_budget (env : Ambient) :
  credentials_missing env = false ->
  exists tr p1 n,
    attempts (config_repos env) env fresh = (Ok tr, p1)
    /\ n <= 3 * List.length (config_repos env)
    /\ List.length (requests p1) = n
    /\ List.length (requests (snd (run env)))
       = n + List.length (flat_map commits (successes tr))
    /\ clock_reads (snd (run env)) = n + 1.
Proof.
  intros C.
  destruct (run_effects env C)
    as (tr & p1 & paths & p2 & urls & err & A & F & L & _ & G & _ & _ & ->).
  exists tr, p1, (List.length urls). split; [exact A|]. split; [exact L|].
  destruct F as (C1 & R1 & _). destruct G as (C2 & R2 & _).
  rewrite (proj1 (report_written_frame _ _ _)),
    (proj1 (proj2 (report_written_frame _ _ _))).
  cbn [requests clock_reads tick fresh Datatypes.app Nat.add] in *.
  split; [now rewrite R1, length_map|].
  split.
  - now rewrite R2, R1, length_app, !length_map, length_commit_urls.
  - rewrite C2, C1. lia.
Qed.

Lemma run_request_budget_witness :
  exists tr p1 n,
    attempts (config_repos Scenario.alpha_beta) Scenario.alpha_beta fresh
    = (Ok tr, p1)
    /\ n <= 3 * List.length (config_repos Scenario.alpha_beta)
    /\ List.length (requests p1) = n
    /\ List.length (requests (snd (run Scenario.alpha_beta)))
       = n + List.length (flat_map commits (successes tr))
    /\ clock_reads (snd (run Scenario.alpha_beta)) = n + 1.
Proof.
  apply (run_request_budget Scenario.alpha_beta). reflexivity.
Defined.

(** X9.  The loop over the configured repositories only ever appends to
    the accumulated list, at most one entry per repository, each entry
    under the name and label of a configured repository, and it leaves
    the report file as it found it: the report is written after the last
    repository, never in between. *)
Theorem fetch_loop_only_appends (repos : list RepoConfig)
    (allData : list RepositoryReport) (env : Ambient) (p : Proc) :
  exists added p',
    for_of repos fetch_step allData env p = (Ok (allData ++ added)%list, p')
    /\ List.length added <= List.length repos
    /\ Forall (fun data =>
                 exists r, In r repos /\ repo data = cfg_name r
                           /\ label data = cfg_label r) added
    /\ report_md p' = report_md p.
Proof.
  destruct (attempts_returns repos env p) as (tr & p' & A).
  exists (successes tr), p'. split; [|split; [|split]].
  - rewrite fetch_loop_attempts. unfold bind. now rewrite A.
  - rewrite <- (attempts_length _ _ _ _ _ A). apply successes_length.
  - pose proof (attempts_labelled _ _ _ _ _ A) as Lb.
    pose proof (attempts_in_order _ _ _ _ _ A) as Or.
    clear A. revert repos Or.
    induction Lb as [|[r [e|data]] tr La _ IH]; intros repos Or;
      cbn [successes].
    + constructor.
    + destruct repos as [|r0 repos]; [discriminate|].
      injection Or as _ Or. specialize (IH repos Or).
      revert IH. apply Forall_impl. intros d (x & I & H). exists x.
      split; [now right | exact H].
    + destruct repos as [|r0 repos]; [discriminate|].
      injection Or as Hr Or. cbn [fst] in Hr. subst r0.
      constructor.
      * exists r. split; [now left | exact La].
      * specialize (IH repos Or). revert IH. apply Forall_impl.
        intros d (x & I & H). exists x. split; [now right | exact H].
  - destruct (attempts_effects _ _ _ _ _ A) as (urls & F & _).
    apply F.
Qed.

(* ================================================================== *)
(** ** What the token reaches *)

Section TokenBlind.

Variable env : Ambient.
Variable token : option string.

Lemma blind_ret {A} (a : A) : token_blind (ret a) env token.
Proof. intros p p' R. split; [reflexivity | exact R]. Qed.

Lemma blind_throw {A} (e : Error) : token_blind (@throw A e) env token.
Proof. intros p p' R. split; [reflexivity | exact R]. Qed.

Lemma blind_bind {A B} (m : M A) (k : A -> M B) :
  token_blind m env token ->
  (forall a, token_blind (k a) env token) ->
  token_blind (bind m k) env token.
Proof.
  intros Hm Hk p p' R. unfold bind.
  destruct (Hm p p' R) as [E R1].
  destruct (m env p) as [[a|e|c] q], (m (with_token token env) p')
    as [[a'|e'|c'] q']; cbn [fst snd] in *; try discriminate;
    injection E as <-.
  - exact (Hk a q q' R1).
  - split; [reflexivity | exact R1].
  - split; [reflexivity | exact R1].
Qed.

Lemma blind_try_catch {A} (body : M A) (handler : Error -> M A) :
  token_blind body env token ->
  (forall e, token_blind (handler e) env token) ->
  token_blind (try_catch body handler) env token.
Proof.
  intros Hb Hh p p' R. unfold try_catch.
  destruct (Hb p p' R) as [E R1].
  destruct (body env p) as [[a|e|c] q], (body (with_token token env) p')
    as [[a'|e'|c'] q']; cbn [fst snd] in *; try discriminate;
    injection E as <-.
  - split; [reflexivity | exact R1].
  - exact (Hh e q q' R1).
  - split; [reflexivity | exact R1].
Qed.

Lemma blind_ask {A} (f : Ambient -> A) :
  f (with_token token env) = f env -> token_blind (ask f) env token.
Proof.
  intros E p p' R. unfold ask. cbn [fst snd]. rewrite E.
  split; [reflexivity | exact R].
Qed.

Lemma blind_new_Date : token_blind new_Date env token.
Proof.
  intros p p' R. unfold new_Date. cbn [fst snd clock with_token].
  destruct R as (C & R). rewrite C. split; [reflexivity|].
  unfold same_but_authorization.
  cbn [clock_reads requests stdout stderr report_md tick].
  now rewrite C.
Qed.

Lemma blind_console_log (line : string) :
  token_blind (console_log line) env token.
Proof.
  intros p p' (C & U & Ac & O & E & F). split; [reflexivity|].
  unfold console_log, same_but_authorization.
  cbn [snd clock_reads requests stdout stderr report_md said].
  now rewrite O.
Qed.

Lemma blind_console_error (line : string) :
  token_blind (console_error line) env token.
Proof.
  intros p p' (C & U & Ac & O & E & F). split; [reflexivity|].
  unfold console_error, same_but_authorization.
  cbn [snd clock_reads requests stdout stderr report_md complained].
  now rewrite E.
Qed.

Lemma blind_fs_writeFile (filePath content : string) :
  token_blind (fs_writeFile filePath content) env token.
Proof.
  intros p p' (C & U & Ac & O & E & F).
  unfold fs_writeFile. cbn [disk with_token].
  destruct (disk env filePath content); cbn [fst snd].
  - split; [reflexivity|]. unfold same_but_authorization.
    cbn [clock_reads requests stdout stderr report_md wrote].
    repeat split; assumption.
  - split; [reflexivity|]. repeat split; assumption.
Qed.

Lemma blind_axios_get {T}
    (endpoint : Ambient -> nat -> string -> Response T) (url : string) :
  endpoint (with_token token env) = endpoint env ->
  token_blind (axios_get endpoint url) env token.
Proof.
  intros Ee p p' (C & U & Ac & O & E & F). unfold axios_get. rewrite Ee.
  assert (L : List.length (requests p) = List.length (requests p')).
  { rewrite <- (length_map req_url (requests p)), U. apply length_map. }
  rewrite L.
  assert (R' : same_but_authorization
                 (sent (headers env url) p)
                 (sent (headers (with_token token env) url) p')).
  { unfold same_but_authorization.
    cbn [clock_reads requests stdout stderr report_md sent].
    rewrite !map_app, U, Ac. cbn [map headers req_url req_accept].
    repeat split; assumption. }
  destruct (endpoint env _ url); cbn [fst snd]; split; auto.
Qed.

Lemma blind_for_of {A S} (body : A -> S -> M S) (xs : list A) :
  (forall x s, token_blind (body x s) env token) ->
  forall s, token_blind (for_of xs body s) env token.
Proof.
  intros Hb. induction xs as [|x xs IH]; intros s; cbn [for_of].
  - apply blind_ret.
  - apply blind_bind; [apply Hb | exact IH].
Qed.

Lemma blind_Array_filter {A} (keep : A -> M bool) (xs : list A) :
  (forall x, token_blind (keep x) env token) ->
  token_blind (Array_filter keep xs) env token.
Proof.
  intros Hk. induction xs as [|x xs IH]; cbn [Array_filter].
  - apply blind_ret.
  - apply blind_bind; [apply Hk|]. intros k.
    apply blind_bind; [exact IH|]. intros kept. apply blind_ret.
Qed.

Lemma blind_merged_by (account : option string) (pr : PullRequest) :
  token_blind (merged_by account pr) env token.
Proof.
  unfold merged_by.
  destruct (truthy (merged_at pr)); [|apply blind_ret].
  destruct (user pr); [apply blind_throw | apply blind_throw | apply blind_ret].
Qed.

(** One step of the proof that a function of the script is blind. *)
Ltac blind_step :=
  first
    [ apply blind_ret
    | apply blind_merged_by
    | apply blind_throw
    | apply blind_new_Date
    | apply blind_console_log
    | apply blind_console_error
    | apply blind_fs_writeFile
    | apply blind_ask; reflexivity
    | apply blind_axios_get; reflexivity
    | apply blind_bind; [|intro]
    | apply blind_try_catch; [|intro]
    | apply blind_for_of; intros ? ?
    | apply blind_Array_filter; intros ?
    | match goal with
      | |- token_blind (if ?c then _ else _) _ _ => destruct c
      end
    | progress cbv zeta ].

Lemma blind_getClosedIssues (owner : option string) (repo : string) :
  token_blind (getClosedIssues owner repo) env token.
Proof. unfold getClosedIssues. repeat blind_step. Qed.

Lemma blind_getMergedPRs (owner : option string) (repo : string) :
  token_blind (getMergedPRs owner repo) env token.
Proof.
  unfold getMergedPRs. repeat blind_step.
Qed.

Lemma blind_getTodaysCommits (owner : option string) (repo : string) :
  token_blind (getTodaysCommits owner repo) env token.
Proof. unfold getTodaysCommits. repeat blind_step. Qed.

Lemma blind_getModifiedFiles (owner : option string) (repo sha : string) :
  token_blind (getModifiedFiles owner repo sha) env token.
Proof. unfold getModifiedFiles. repeat blind_step. Qed.

Lemma blind_commit_step (data : RepositoryReport) (commit : Commit)
    (content : string) :
  token_blind (commit_step data commit content) env token.
Proof.
  unfold commit_step. repeat blind_step.
Qed.

Lemma blind_repo_step (data : RepositoryReport) (content : string) :
  token_blind (repo_step data content) env token.
Proof.
  unfold repo_step. repeat blind_step.
Qed.

Lemma blind_generateReport (allData : list RepositoryReport) :
  token_blind (generateReport allData) env token.
Proof.
  unfold generateReport. repeat blind_step.
Qed.

Lemma blind_fetch_step (repoConfig : RepoConfig)
    (allData : list RepositoryReport) :
  token_blind (fetch_step repoConfig allData) env token.
Proof.
  unfold fetch_step. repeat blind_step.
Qed.

Lemma blind_main : token_blind main env token.
Proof.
  unfold main. repeat blind_step.
Qed.

End TokenBlind.

(** X10.  The access token reaches nothing but the Authorization header.
    Two runs in the same surroundings, under two tokens that are both
    empty or absent or both not, end alike, print the same lines on both
    console streams, write the same report, read the clock as often, and
    ask for the same URLs. *)
Theorem token_reaches_only_the_header (env : Ambient) (token : option string) :
  truthy_env token = truthy_env (env_GITHUB_TOKEN env) ->
  fst (run env) = fst (run (with_token token env))
  /\ stdout (snd (run env)) = stdout (snd (run (with_token token env)))
  /\ stderr (snd (run env)) = stderr (snd (run (with_token token env)))
  /\ report_md (snd (run env)) = report_md (snd (run (with_token token env)))
  /\ clock_reads (snd (run env))
     = clock_reads (snd (run (with_token token env)))
  /\ map req_url (requests (snd (run env)))
     = map req_url (requests (snd (run (with_token token env)))).
Proof.
  intros T. unfold run. rewrite !script_checks_credentials.
  assert (C : credentials_missing (with_token token env)
              = credentials_missing env).
  { unfold credentials_missing. cbn [env_GITHUB_TOKEN env_GITHUB_USER with_token].
    now rewrite T. }
  rewrite C. destruct (credentials_missing env).
  - repeat split.
  - assert (R0 : same_but_authorization fresh fresh) by (repeat split).
    destruct (blind_main env token fresh fresh R0)
      as (E & K & U & _ & O & Er & F).
    repeat split; auto.
Qed.

Lemma token_reaches_only_the_header_witness :
  fst (run Scenario.alpha_beta) = fst (run Scenario.other_token)
  /\ stdout (snd (run Scenario.alpha_beta))
     = stdout (snd (run Scenario.other_token))
  /\ stderr (snd (run Scenario.alpha_beta))
     = stderr (snd (run Scenario.other_token))
  /\ report_md (snd (run Scenario.alpha_beta))
     = report_md (snd (run Scenario.other_token))
  /\ clock_reads (snd (run Scenario.alpha_beta))
     = clock_reads (snd (run Scenario.other_token))
  /\ map req_url (requests (snd (run Scenario.alpha_beta)))
     = map req_url (requests (snd (run Scenario.other_token))).
Proof.
  apply (token_reaches_only_the_header Scenario.alpha_beta (Some "0ther")).
  reflexivity.
Defined.

Lemma requests_after_one (env : Ambient) (url : string) (p : Proc) :
  List.length (requests (sent (headers env url) (tick p)))
  = S (List.length (requests p)).
Proof.
  cbn [requests sent tick]. rewrite length_app. cbn [List.length]. lia.
Qed.

(** X11.  When its three requests are fulfilled and no merged pull
    request lacks its author object, the fetch of a repository returns
    the entry with the configured name and label, the issues exactly as
    the platform sent them (no client-side filter), the pull requests
    that are merged and authored by the account, and one commit per entry
    of the commit list, in order, reduced to sha, message and URL. *)
Theorem fetch_repository_builds_the_entry (r : RepoConfig) (env : Ambient)
    (p : Proc) (closed : list Issue) (pulls : list PullRequest)
    (entries : list CommitEntry) :
  let account := env_GITHUB_USER env in
  let k := clock_reads p in
  let i := List.length (requests p) in
  issues_endpoint env i (issues_url env account (cfg_name r) (clock env k))
  = Fulfilled closed ->
  pulls_endpoint env (S i) (pulls_url account (cfg_name r) (clock env (S k)))
  = Fulfilled pulls ->
  existsb orphan pulls = false ->
  commits_endpoint env (S (S i))
    (commits_url env account (cfg_name r) (clock env (S (S k))))
  = Fulfilled entries ->
  fst (fetch_repository r env p)
  = Ok (mkReport (cfg_name r) (cfg_label r) closed
          (filter (fun pr => truthy (merged_at pr) && authored_by account pr)
                  pulls)
          (map (fun e => mkCommit (entry_sha e) (entry_commit_message e)
                                  (entry_html_url e)) entries)).
Proof.
  cbv zeta. intros I P O C.
  unfold fetch_repository, ask, bind.
  rewrite getClosedIssues_settles. cbv zeta. rewrite I. cbv beta iota.
  rewrite getMergedPRs_settles. cbv zeta.
  rewrite requests_after_one.
  change (clock_reads (sent (headers env
            (issues_url env (env_GITHUB_USER env) (cfg_name r)
               (clock env (clock_reads p)))) (tick p)))
    with (S (clock_reads p)).
  rewrite P. rewrite (Array_filter_keeps _ _ _ _ (no_orphan _ O)).
  cbv beta iota.
  rewrite getTodaysCommits_settles. cbv zeta.
  rewrite !requests_after_one.
  change (clock_reads
            (sent (headers env
                     (pulls_url (env_GITHUB_USER env) (cfg_name r)
                        (clock env (S (clock_reads p)))))
               (tick (sent (headers env
                        (issues_url env (env_GITHUB_USER env) (cfg_name r)
                           (clock env (clock_reads p)))) (tick p)))))
    with (S (S (clock_reads p))).
  rewrite C. reflexivity.
Qed.

Lemma fetch_repository_builds_the_entry_witness :
  fst (fetch_repository Scenario.alpha Scenario.alpha_beta fresh)
  = Ok (mkReport "alpha" "Alpha" [Scenario.bug]
          (filter (fun pr => truthy (merged_at pr)
                             && authored_by (Some "me") pr)
                  [Scenario.mine; Scenario.unmerged; Scenario.theirs])
          (map (fun e => mkCommit (entry_sha e) (entry_commit_message e)
                                  (entry_html_url e))
               [Scenario.fix_entry])).
Proof.
  apply (fetch_repository_builds_the_entry Scenario.alpha Scenario.alpha_beta
           fresh [Scenario.bug]
           [Scenario.mine; Scenario.unmerged; Scenario.theirs]
           [Scenario.fix_entry]); reflexivity.
Defined.

(** X12.  The section of a repository ends with the commits heading
    followed by the fixed placeholder when the entry has no commit, in
    which case rendering it sends no request, and otherwise by one commit
    block per commit, in order, each with the file list resolved for that
    commit. *)
Theorem repo_step_renders_the_commits (data : RepositoryReport)
    (content : string) (env : Ambient) (p : Proc) :
  exists paths p',
    repo_step data content env p
    = (Ok (content
           ++ repository_heading (label data) (repo data)
           ++ issues_heading (label data) ++ block (issue_items (issues data))
           ++ prs_heading (label data) ++ block (pr_items (prs data))
           ++ commits_heading (label data)
           ++ block (commit_blocks (commits data) paths)), p')
    /\ List.length paths = List.length (commits data)
    /\ List.length (commit_blocks (commits data) paths)
       = List.length (commits data)
    /\ (commits data = [] ->
        block (commit_blocks (commits data) paths) = placeholder /\ p' = p)
    /\ (commits data <> [] ->
        block (commit_blocks (commits data) paths)
        = glue (map (fun cp => commit_block (fst cp) (snd cp))
                    (combine (commits data) paths))).
Proof.
  destruct (resolve_files_returns data env p) as (paths & p' & R).
  exists paths, p'.
  assert (L : List.length paths = List.length (commits data))
    by exact (mapM_length _ _ _ _ _ _ R).
  split; [|split; [exact L|split; [|split]]].
  - rewrite repo_step_appends. unfold bind. rewrite R. reflexivity.
  - unfold commit_blocks. rewrite length_map, length_combine. lia.
  - intros E. unfold resolve_files in R. rewrite E in *.
    cbn [mapM] in R. unfold ret in R. injection R as <- <-.
    split; reflexivity.
  - intros N. unfold commit_blocks.
    destruct (commits data) as [|c l]; [congruence|].
    destruct paths as [|f fs]; [discriminate L|]. reflexivity.
Qed.

Lemma repo_step_renders_the_commits_witness :
  exists paths p',
    fst (repo_step (mkReport "alpha" "Alpha" [Scenario.bug] [] []) ""
           Scenario.alpha_beta fresh)
    = Ok (""
          ++ repository_heading "Alpha" "alpha"
          ++ issues_heading "Alpha" ++ block (issue_items [Scenario.bug])
          ++ prs_heading "Alpha" ++ block (pr_items [])
          ++ commits_heading "Alpha" ++ block (commit_blocks [] paths))
    /\ block (commit_blocks [] paths) = placeholder
    /\ p' = fresh.
Proof.
  destruct (repo_step_renders_the_commits
              (mkReport "alpha" "Alpha" [Scenario.bug] [] []) ""
              Scenario.alpha_beta fresh)
    as (paths & p' & E & _ & _ & Z & _).
  exists paths, p'. split; [now rewrite E|]. apply Z. reflexivity.
Defined.
